(** * Transformation tracker: the business metrics calculator

    A shallow embedding of [BusinessMetricsCalculator]
    (src/transformation/calculators.py): the per-initiative health score
    with its four sub-scores, the risk tags, the predicted completion date,
    the portfolio roll-up and the executive summary.

    Numbers.  The Python code computes on IEEE doubles held in pandas
    columns.  Here a column value is an exact rational extended with the
    three special values that pandas produces and propagates (+inf, -inf,
    NaN): every threshold test, every division by zero and every missing
    value (NaN) behaves as in the source, while the rounding of the
    arithmetic and the sign of zero are not represented.

    Dates.  A pandas Timestamp is its number of nanoseconds since the epoch,
    an unbounded integer: range errors of date arithmetic are outside the
    model, and every date is present (no NaT). *)

From Stdlib Require Import ZArith QArith Qround Lqa Lia List String Bool.
Import ListNotations.

Open Scope string_scope.
Open Scope list_scope.
Open Scope Z_scope.
Open Scope Q_scope.

(* ================================================================= *)
(** ** Column values: extended rationals *)

Inductive fnum : Type :=
| Fin (q : Q)
| PInf
| NInf
| NaN.

Definition of_Z (z : Z) : fnum := Fin (inject_Z z).

Definition isna (x : fnum) : bool :=
  match x with NaN => true | _ => false end.

Definition Qlt_bool (a b : Q) : bool := negb (Qle_bool b a).

(** Comparisons: anything compared with NaN is false. *)
Definition fle (x y : fnum) : bool :=
  match x, y with
  | NaN, _ | _, NaN => false
  | NInf, _ => true
  | _, PInf => true
  | Fin a, Fin b => Qle_bool a b
  | _, _ => false
  end.

Definition flt (x y : fnum) : bool :=
  match x, y with
  | NaN, _ | _, NaN => false
  | PInf, _ => false
  | _, NInf => false
  | Fin a, Fin b => Qlt_bool a b
  | _, _ => true
  end.

Definition fge (x y : fnum) : bool := fle y x.
Definition fgt (x y : fnum) : bool := flt y x.

Definition fopp (x : fnum) : fnum :=
  match x with
  | Fin a => Fin (- a)
  | PInf => NInf
  | NInf => PInf
  | NaN => NaN
  end.

Definition fadd (x y : fnum) : fnum :=
  match x, y with
  | NaN, _ | _, NaN => NaN
  | Fin a, Fin b => Fin (a + b)
  | PInf, NInf | NInf, PInf => NaN
  | PInf, _ | _, PInf => PInf
  | NInf, _ | _, NInf => NInf
  end.

Definition fsub (x y : fnum) : fnum := fadd x (fopp y).

(** Sign of a value, for products and quotients of infinities. *)
Definition fsign (x : fnum) : option comparison :=
  match x with
  | NaN => None
  | PInf => Some Gt
  | NInf => Some Lt
  | Fin a => Some (a ?= 0)
  end.

Definition signed_inf (s t : comparison) : fnum :=
  match s, t with
  | Eq, _ | _, Eq => NaN
  | Gt, Gt | Lt, Lt => PInf
  | _, _ => NInf
  end.

Definition fmul (x y : fnum) : fnum :=
  match x, y with
  | Fin a, Fin b => Fin (a * b)
  | _, _ =>
      match fsign x, fsign y with
      | Some s, Some t => signed_inf s t
      | _, _ => NaN
      end
  end.

(** Division as NumPy and pandas do it: a zero divisor raises nothing, it
    gives +inf, -inf or NaN after the sign of the dividend. *)
Definition fdiv (x y : fnum) : fnum :=
  match x, y with
  | NaN, _ | _, NaN => NaN
  | Fin a, Fin b =>
      match b ?= 0 with
      | Eq => match a ?= 0 with Eq => NaN | Gt => PInf | Lt => NInf end
      | _ => Fin (a / b)
      end
  | Fin _, _ => Fin 0
  | _, Fin b => match fsign x, (b ?= 0) with
                | Some s, Lt => signed_inf s Lt
                | Some s, _ => signed_inf s Gt
                | None, _ => NaN
                end
  | _, _ => NaN
  end.

(** [Series.fillna(v)]. *)
Definition fillna (v : fnum) (x : fnum) : fnum :=
  if isna x then v else x.

(** Python's builtins [max(a, b)] and [min(a, b)]: the first argument is
    kept unless the second one is strictly better. *)
Definition py_max (a b : fnum) : fnum := if fgt b a then b else a.
Definition py_min (a b : fnum) : fnum := if flt b a then b else a.

(** [Series.sum()]: NaN entries are skipped, the empty sum is 0. *)
Definition pd_sum (l : list fnum) : fnum :=
  fold_left fadd (filter (fun x => negb (isna x)) l) (Fin 0).

(** [Series.mean()] and the grouped ['mean']: NaN entries are skipped, and
    the mean of nothing is NaN. *)
Definition pd_mean (l : list fnum) : fnum :=
  match filter (fun x => negb (isna x)) l with
  | [] => NaN
  | ys => fdiv (pd_sum ys) (of_Z (Z.of_nat (List.length ys)))
  end.

(* ================================================================= *)
(** ** Exceptions *)

Inductive exn : Type :=
| ZeroDivisionError
| OverflowError
| ValueError.

Inductive result (A : Type) : Type :=
| Ok (a : A)
| Raise (e : exn).
Arguments Ok {A} a.
Arguments Raise {A} e.

Definition bind {A B} (m : result A) (k : A -> result B) : result B :=
  match m with
  | Ok a => k a
  | Raise e => Raise e
  end.

Notation "x <- m ;; k" := (bind m (fun x => k))
  (at level 61, m at next level, right associativity).

Fixpoint mapM {A B} (f : A -> result B) (l : list A) : result (list B) :=
  match l with
  | [] => Ok []
  | a :: t => b <- f a ;; bs <- mapM f t ;; Ok (b :: bs)
  end.

(* ================================================================= *)
(** ** Dates and durations *)

Definition NS_PER_DAY : Z := 86400 * 1000000000.
Definition US_PER_DAY : Z := 86400 * 1000000.

(** [Timedelta.days]: whole days, rounded towards minus infinity. *)
Definition td_days (ns : Z) : Z := (ns / NS_PER_DAY)%Z.

Definition round_half_even (q : Q) : Z :=
  let f := Qfloor q in
  match ((q - inject_Z f) ?= (1 # 2))%Q with
  | Lt => f
  | Gt => (f + 1)%Z
  | Eq => if Z.even f then f else (f + 1)%Z
  end.

(** [timedelta(days=x)] for a float [x], in nanoseconds: the duration is
    rounded to the nearest microsecond; a NaN or an infinite [x] raises. *)
Definition timedelta_days (x : fnum) : result Z :=
  match x with
  | Fin q => Ok (1000 * round_half_even (q * inject_Z US_PER_DAY)%Q)%Z
  | NaN => Raise ValueError
  | PInf | NInf => Raise OverflowError
  end.

(* ================================================================= *)
(** ** Input tables (src/ingestion/models.py) *)

Module InitiativeData.
Record t : Type := mk {
  initiative_id : string;
  name : string;
  type : string;
  start_date : Z;
  target_end_date : Z;
  budget_allocated : fnum;
  budget_spent : fnum;
  status : string;
  owner : string;
  description : string
}.
End InitiativeData.

Module FinancialMetric.
Record t : Type := mk {
  initiative_id : string;
  date : Z;
  revenue_impact : fnum;
  cost_reduction : fnum;
  roi_percentage : fnum;
  budget_burn_rate : fnum;
  forecast_completion_cost : fnum
}.
End FinancialMetric.

Module OperationalMetric.
Record t : Type := mk {
  initiative_id : string;
  date : Z;
  efficiency_gain_percentage : fnum;
  process_cycle_time : fnum;
  quality_score : fnum;
  employee_satisfaction : fnum;
  customer_satisfaction : fnum
}.
End OperationalMetric.

Abbreviation Initiative := InitiativeData.t.

(* ================================================================= *)
(** ** Health scorer: [calculate_initiative_health_scores] *)

(** The lambda of the budget score (0-25 points). *)
Definition budget_score_fn (x : fnum) : Z :=
  if fle (Fin 0.8) x && fle x (Fin 1.0) then 25
  else if (fle (Fin 0.6) x && flt x (Fin 0.8))
          || (flt (Fin 1.0) x && fle x (Fin 1.1)) then 20
  else if (fle (Fin 0.4) x && flt x (Fin 0.6))
          || (flt (Fin 1.1) x && fle x (Fin 1.2)) then 10
  else 0.

(** The lambda of the time score (0-25 points). *)
Definition time_score_fn (status : string) (time_progress : fnum) : Z :=
  if String.eqb status "Completed" then 25
  else if fle time_progress (Fin 0.9) then 20
  else if fle time_progress (Fin 1.0) then 15
  else if fle time_progress (Fin 1.2) then 5
  else 0.

(** The lambda of the financial score (0-30 points), applied to the mean
    ROI after [fillna(0)]. *)
Definition financial_score_fn (x : fnum) : Z :=
  if fge x (Fin 20) then 30
  else if fge x (Fin 15) then 25
  else if fge x (Fin 10) then 20
  else if fge x (Fin 5) then 15
  else if fge x (Fin 0) then 10
  else 0.

(** The operational composite and its clamp [min(20, max(0, x))]. *)
Definition operational_composite (eff qual sat : fnum) : fnum :=
  fadd (fadd (fmul (fillna (Fin 0) eff) (Fin 0.4))
             (fmul (fillna (Fin 80) qual) (Fin 0.2)))
       (fmul (fillna (Fin 7) sat) (Fin 2)).

Definition clamp_0_20 (x : fnum) : fnum :=
  py_min (Fin 20) (py_max (Fin 0) x).

(** The lambda of the classification. *)
Definition health_status_fn (x : fnum) : string :=
  if fge x (Fin 80) then "Excellent"
  else if fge x (Fin 65) then "Good"
  else if fge x (Fin 50) then "Warning"
  else "Critical".

(** The columns of the frame when the two row functions are applied. *)
Record ScoredRow : Type := mkScored {
  base :> Initiative;
  budget_utilization : fnum;
  budget_score : Z;
  days_since_start : Z;
  total_duration : Z;
  time_progress : fnum;
  time_score : Z;
  revenue_impact : fnum;
  cost_reduction : fnum;
  roi_percentage : fnum;
  financial_score : Z;
  efficiency_gain_percentage : fnum;
  quality_score : fnum;
  employee_satisfaction : fnum;
  operational_score : fnum;
  health_score : fnum;
  health_status : string
}.

(** A row of the frame that [calculate_initiative_health_scores] returns. *)
Record HealthRow : Type := mkHealth {
  scored :> ScoredRow;
  predicted_completion_date : Z;
  risk_factors : list string
}.

Definition _predict_completion_date (row : ScoredRow) : result Z :=
  if String.eqb (InitiativeData.status row) "Completed" then
    Ok (InitiativeData.target_end_date row)
  else if fgt (time_progress row) (Fin 0) then
    let estimated_total_days :=
      fdiv (of_Z (days_since_start row))
           (py_max (time_progress row) (Fin 0.1)) in
    td <- timedelta_days estimated_total_days ;;
    Ok (InitiativeData.start_date row + td)%Z
  else
    Ok (InitiativeData.target_end_date row).

(** [row.get(key, default)] finds the key in every row of the frame (the
    merges have added both columns), so the default is never used and a
    missing aggregate is read as NaN. *)
Definition _identify_risk_factors (row : ScoredRow) : list string :=
  let risks := [] in
  let risks := if fgt (budget_utilization row) (Fin 1.1)
               then risks ++ ["Budget Overrun"] else risks in
  let risks := if fgt (time_progress row) (Fin 1.0)
                  && negb (String.eqb (InitiativeData.status row) "Completed")
               then risks ++ ["Schedule Delay"] else risks in
  let risks := if flt (roi_percentage row) (Fin 5)
               then risks ++ ["Low ROI"] else risks in
  let risks := if flt (employee_satisfaction row) (Fin 6)
               then risks ++ ["Team Satisfaction"] else risks in
  risks.

Section Scorer.

(** [datetime.now()] at the call, and the two sample tables. *)
Variable today : Z.
Variable financial_df : list FinancialMetric.t.
Variable operational_df : list OperationalMetric.t.

Definition financial_group (id : string) : list FinancialMetric.t :=
  filter (fun s => String.eqb (FinancialMetric.initiative_id s) id)
         financial_df.

Definition operational_group (id : string) : list OperationalMetric.t :=
  filter (fun s => String.eqb (OperationalMetric.initiative_id s) id)
         operational_df.

(** [groupby('initiative_id').agg(...)] followed by the left merge: an
    initiative without samples gets NaN in every aggregated column. *)
Definition merged {S} (group : list S) (agg : list fnum -> fnum)
           (col : S -> fnum) : fnum :=
  match group with
  | [] => NaN
  | _ => agg (map col group)
  end.

Definition score_row (i : Initiative) : ScoredRow :=
  let budget_utilization :=
    fdiv (InitiativeData.budget_spent i) (InitiativeData.budget_allocated i) in
  let budget_score := budget_score_fn budget_utilization in
  let days_since_start := td_days (today - InitiativeData.start_date i) in
  let total_duration :=
    td_days (InitiativeData.target_end_date i - InitiativeData.start_date i) in
  let time_progress := fdiv (of_Z days_since_start) (of_Z total_duration) in
  let time_score := time_score_fn (InitiativeData.status i) time_progress in
  let fg := financial_group (InitiativeData.initiative_id i) in
  let revenue_impact := merged fg pd_sum FinancialMetric.revenue_impact in
  let cost_reduction := merged fg pd_sum FinancialMetric.cost_reduction in
  let roi_percentage := merged fg pd_mean FinancialMetric.roi_percentage in
  let financial_score := financial_score_fn (fillna (Fin 0) roi_percentage) in
  let og := operational_group (InitiativeData.initiative_id i) in
  let efficiency_gain_percentage :=
    merged og pd_mean OperationalMetric.efficiency_gain_percentage in
  let quality_score := merged og pd_mean OperationalMetric.quality_score in
  let employee_satisfaction :=
    merged og pd_mean OperationalMetric.employee_satisfaction in
  let operational_score :=
    clamp_0_20 (operational_composite efficiency_gain_percentage
                                      quality_score employee_satisfaction) in
  let health_score :=
    fadd (of_Z (budget_score + time_score + financial_score))
         operational_score in
  let health_status := health_status_fn health_score in
  mkScored i budget_utilization budget_score days_since_start total_duration
           time_progress time_score revenue_impact cost_reduction
           roi_percentage financial_score efficiency_gain_percentage
           quality_score employee_satisfaction operational_score
           health_score health_status.

Definition health_row (i : Initiative) : result HealthRow :=
  let row := score_row i in
  d <- _predict_completion_date row ;;
  Ok (mkHealth row d (_identify_risk_factors row)).

End Scorer.

(** The frame is built column by column in the source; row by row here,
    which gives the same frame since no column looks at another row of the
    initiatives table.  The first argument is the value of
    [datetime.now()]. *)
Definition calculate_initiative_health_scores (today : Z)
           (initiatives_df : list Initiative)
           (financial_df : list FinancialMetric.t)
           (operational_df : list OperationalMetric.t)
  : result (list HealthRow) :=
  mapM (health_row today financial_df operational_df) initiatives_df.

(* ================================================================= *)
(** ** Portfolio aggregator: [calculate_portfolio_metrics] *)

Module HealthDistribution.
Record t : Type := mk {
  excellent : Z;
  good : Z;
  warning : Z;
  critical : Z
}.
End HealthDistribution.

Module AtRisk.
Record t : Type := mk {
  count : Z;
  total_budget : fnum;
  names : list string
}.
End AtRisk.

Module Upcoming.
Record t : Type := mk {
  count : Z;
  names : list string
}.
End Upcoming.

(** The metrics dictionary.  ['performance_by_type'] (the rounded per-type
    means) is not part of this development. *)
Record PortfolioMetrics : Type := mkMetrics {
  total_initiatives : Z;
  active_initiatives : Z;
  completed_initiatives : Z;
  total_budget_allocated : fnum;
  total_budget_spent : fnum;
  budget_utilization_rate : fnum;
  total_financial_impact : fnum;
  portfolio_roi : fnum;
  health_distribution : HealthDistribution.t;
  at_risk_initiatives : AtRisk.t;
  upcoming_completions : Upcoming.t
}.

(** [len(df)]. *)
Definition len {A} (l : list A) : Z := Z.of_nat (List.length l).

(** [Series.value_counts().get(key, 0)] on a column of strings. *)
Definition value_count (key : string) (col : list string) : Z :=
  len (filter (String.eqb key) col).

Definition status_of (r : HealthRow) : string := InitiativeData.status r.
Definition name_of (r : HealthRow) : string := InitiativeData.name r.
Definition budget_allocated_of (r : HealthRow) : fnum :=
  InitiativeData.budget_allocated r.
Definition budget_spent_of (r : HealthRow) : fnum :=
  InitiativeData.budget_spent r.

Definition calculate_portfolio_metrics (now : Z) (health_df : list HealthRow)
           (financial_df : list FinancialMetric.t) : PortfolioMetrics :=
  let total_initiatives := len health_df in
  let active_initiatives :=
    len (filter (fun r => String.eqb (status_of r) "In Progress"
                          || String.eqb (status_of r) "At Risk") health_df) in
  let completed_initiatives :=
    len (filter (fun r => String.eqb (status_of r) "Completed") health_df) in
  let total_budget_allocated := pd_sum (map budget_allocated_of health_df) in
  let total_budget_spent := pd_sum (map budget_spent_of health_df) in
  let budget_utilization_rate :=
    fmul (fdiv total_budget_spent total_budget_allocated) (Fin 100) in
  let total_revenue_impact :=
    pd_sum (map FinancialMetric.revenue_impact financial_df) in
  let total_cost_reduction :=
    pd_sum (map FinancialMetric.cost_reduction financial_df) in
  let total_financial_impact := fadd total_revenue_impact total_cost_reduction in
  let portfolio_roi :=
    fmul (fsub (fdiv total_financial_impact total_budget_spent) (Fin 1))
         (Fin 100) in
  let statuses := map (fun r : HealthRow => health_status r) health_df in
  let health_distribution :=
    HealthDistribution.mk (value_count "Excellent" statuses)
                          (value_count "Good" statuses)
                          (value_count "Warning" statuses)
                          (value_count "Critical" statuses) in
  let at_risk :=
    filter (fun r : HealthRow => flt (health_score r) (Fin 50)) health_df in
  let at_risk_initiatives :=
    AtRisk.mk (len at_risk)
              (if (0 <? len at_risk)%Z
               then pd_sum (map budget_allocated_of at_risk) else Fin 0)
              (if (0 <? len at_risk)%Z then map name_of at_risk else []) in
  let upcoming :=
    filter (fun r => (predicted_completion_date r <=? now + 30 * NS_PER_DAY)%Z)
           health_df in
  let upcoming_completions :=
    Upcoming.mk (len upcoming) (map name_of upcoming) in
  mkMetrics total_initiatives active_initiatives completed_initiatives
            total_budget_allocated total_budget_spent budget_utilization_rate
            total_financial_impact portfolio_roi health_distribution
            at_risk_initiatives upcoming_completions.

(* ================================================================= *)
(** ** Executive summary: [create_executive_summary] *)

(** The f-strings of the ['current_value'] column, kept symbolic: a float
    printed with one decimal and a percent sign, or two integers around a
    slash. *)
Inductive display : Type :=
| Percent1 (x : fnum)
| Ratio (a b : Z).

Module Summary.
Record row : Type := mk {
  metric_name : string;
  current_value : display;
  status : string;
  description : string;
  action_required : string
}.
End Summary.

(** Python's [a / b] on two ints. *)
Definition py_truediv (a b : Z) : result fnum :=
  if (b =? 0)%Z then Raise ZeroDivisionError
  else Ok (Fin (inject_Z a / inject_Z b)).

Definition create_executive_summary (portfolio_metrics : PortfolioMetrics)
  : result (list Summary.row) :=
  let roi := portfolio_roi portfolio_metrics in
  let kpi1 :=
    Summary.mk "Portfolio ROI" (Percent1 roi)
      (if fgt roi (Fin 15) then "Good" else "Warning")
      "Return on Investment across all transformation initiatives"
      (if fgt roi (Fin 15) then "None"
       else "Review underperforming initiatives") in
  let budget_util := budget_utilization_rate portfolio_metrics in
  let kpi2 :=
    Summary.mk "Budget Utilization" (Percent1 budget_util)
      (if fle (Fin 80) budget_util && fle budget_util (Fin 100)
       then "Good" else "Warning")
      "Overall budget utilization across portfolio"
      (if fle (Fin 80) budget_util && fle budget_util (Fin 100)
       then "None" else "Budget reallocation needed") in
  let at_risk_count := AtRisk.count (at_risk_initiatives portfolio_metrics) in
  let total := total_initiatives portfolio_metrics in
  let kpi3 :=
    Summary.mk "At-Risk Initiatives" (Ratio at_risk_count total)
      (if fgt (of_Z at_risk_count) (fmul (of_Z total) (Fin 0.3))
       then "Critical" else "Good")
      "Number of initiatives requiring immediate attention"
      (if (0 <? at_risk_count)%Z then "Immediate intervention required"
       else "None") in
  q <- py_truediv (completed_initiatives portfolio_metrics) total ;;
  let completion_rate := fmul q (Fin 100) in
  let kpi4 :=
    Summary.mk "Completion Rate" (Percent1 completion_rate)
      (if fgt completion_rate (Fin 60) then "Good" else "Warning")
      "Percentage of initiatives successfully completed"
      (if flt completion_rate (Fin 60) then "Accelerate delivery"
       else "None") in
  Ok [kpi1; kpi2; kpi3; kpi4].

(* ================================================================= *)
(** * Properties *)

(** ** Order on column values *)

Definition Fle (x y : fnum) : Prop := fle x y = true.
Definition Flt (x y : fnum) : Prop := flt x y = true.

Definition finite (x : fnum) : bool :=
  match x with Fin _ => true | _ => false end.

Lemma Qle_bool_false (a b : Q) : Qle_bool a b = false <-> b < a.
Proof.
  split; intros H.
  - apply Qnot_le_lt. intros Hle. apply Qle_bool_iff in Hle. congruence.
  - destruct (Qle_bool a b) eqn:E; [|reflexivity].
    apply Qle_bool_iff in E. lra.
Qed.

Lemma Qlt_bool_iff (a b : Q) : Qlt_bool a b = true <-> a < b.
Proof.
  unfold Qlt_bool. rewrite negb_true_iff. apply Qle_bool_false.
Qed.

Lemma Qlt_bool_false (a b : Q) : Qlt_bool a b = false <-> b <= a.
Proof.
  unfold Qlt_bool. rewrite negb_false_iff. apply Qle_bool_iff.
Qed.

Lemma Fle_Fin (a b : Q) : Fle (Fin a) (Fin b) <-> a <= b.
Proof. apply Qle_bool_iff. Qed.

Lemma Flt_Fin (a b : Q) : Flt (Fin a) (Fin b) <-> a < b.
Proof. apply Qlt_bool_iff. Qed.

(** Every boolean test on rationals in the context or the goal is split
    and turned into the order fact it decides. *)
Ltac qtests :=
  repeat match goal with
    | H : Qle_bool _ _ = true |- _ => apply Qle_bool_iff in H
    | H : Qle_bool _ _ = false |- _ => apply Qle_bool_false in H
    | H : Qlt_bool _ _ = true |- _ => apply Qlt_bool_iff in H
    | H : Qlt_bool _ _ = false |- _ => apply Qlt_bool_false in H
    | |- context [Qle_bool ?a ?b] =>
        let E := fresh "E" in destruct (Qle_bool a b) eqn:E
    | |- context [Qlt_bool ?a ?b] =>
        let E := fresh "E" in destruct (Qlt_bool a b) eqn:E
    end.

Ltac forder := unfold Fle, Flt, fge, fgt, fle, flt in *.

Lemma mapM_In {A B} (f : A -> result B) (l : list A) (bs : list B) :
  mapM f l = Ok bs ->
  forall b, In b bs -> exists a, In a l /\ f a = Ok b.
Proof.
  revert bs. induction l as [|a t IH]; simpl; intros bs H b Hb.
  - inversion H; subst. contradiction.
  - destruct (f a) as [b0|e] eqn:Ea; simpl in H; [|discriminate].
    destruct (mapM f t) as [bs0|e] eqn:Et; simpl in H; [|discriminate].
    inversion H; subst. destruct Hb as [->|Hb].
    + exists a. auto.
    + destruct (IH bs0 eq_refl b Hb) as (a' & Ha' & Hf). exists a'. auto.
Qed.

Lemma mapM_length {A B} (f : A -> result B) (l : list A) (bs : list B) :
  mapM f l = Ok bs -> List.length bs = List.length l.
Proof.
  revert bs. induction l as [|a t IH]; simpl; intros bs H.
  - inversion H. reflexivity.
  - destruct (f a) as [b0|e]; simpl in H; [|discriminate].
    destruct (mapM f t) as [bs0|e]; simpl in H; [|discriminate].
    inversion H; subst. simpl. f_equal. auto.
Qed.

(** A row of the returned frame is the scored row of one of the
    initiatives, with its prediction and its risk tags. *)
Lemma health_df_row today inits fin op df (row : HealthRow) :
  calculate_initiative_health_scores today inits fin op = Ok df ->
  In row df ->
  exists i, In i inits
    /\ scored row = score_row today fin op i
    /\ _predict_completion_date (scored row) = Ok (predicted_completion_date row)
    /\ risk_factors row = _identify_risk_factors (scored row).
Proof.
  intros H Hin. destruct (mapM_In _ _ _ H row Hin) as (i & Hi & Hr).
  exists i. split; [exact Hi|]. unfold health_row in Hr.
  destruct (_predict_completion_date (score_row today fin op i)) as [d|e] eqn:Ed;
    simpl in Hr; [|discriminate].
  inversion Hr; subst. simpl. auto.
Qed.

(** Left-join semantics: the frame has one row per initiative, in the order
    of the initiatives table, whatever the sample tables hold. *)
Lemma health_df_bases today inits fin op df :
  calculate_initiative_health_scores today inits fin op = Ok df ->
  map (fun r : HealthRow => base r) df = inits.
Proof.
  unfold calculate_initiative_health_scores. revert df.
  induction inits as [|i t IH]; cbn; intros df H.
  - inversion H. reflexivity.
  - unfold health_row at 1 in H.
    destruct (_predict_completion_date (score_row today fin op i)) as [d|e];
      cbn in H; [|discriminate].
    destruct (mapM (health_row today fin op) t) as [bs|e]; cbn in H;
      [|discriminate].
    inversion H; subst. cbn. f_equal. apply IH. reflexivity.
Qed.

(** ** The sub-scores and their bands *)

Lemma budget_score_fn_band (x : fnum) :
  (0 <= budget_score_fn x <= 25)%Z.
Proof.
  unfold budget_score_fn.
  repeat match goal with |- context [if ?c then _ else _] => destruct c end; lia.
Qed.

Lemma time_score_fn_band (s : string) (x : fnum) :
  (0 <= time_score_fn s x <= 25)%Z.
Proof.
  unfold time_score_fn.
  repeat match goal with |- context [if ?c then _ else _] => destruct c end; lia.
Qed.

Lemma financial_score_fn_band (x : fnum) :
  (0 <= financial_score_fn x <= 30)%Z.
Proof.
  unfold financial_score_fn.
  repeat match goal with |- context [if ?c then _ else _] => destruct c end; lia.
Qed.

Lemma clamp_0_20_band (x : fnum) :
  exists q, clamp_0_20 x = Fin q /\ 0 <= q <= 20.
Proof.
  unfold clamp_0_20, py_min, py_max, fgt.
  destruct x as [q| | |]; simpl.
  - destruct (Qlt_bool 0 q) eqn:E0; simpl.
    + destruct (Qlt_bool q 20) eqn:E20; qtests;
        eexists; (split; [reflexivity|lra]).
    + qtests. exists 0. split; [reflexivity|lra].
  - exists 20. split; [reflexivity|lra].
  - exists 0. split; [reflexivity|lra].
  - exists 0. split; [reflexivity|lra].
Qed.

Ltac row_fields :=
  unfold score_row;
  cbn [base budget_utilization budget_score days_since_start total_duration
       time_progress time_score revenue_impact cost_reduction roi_percentage
       financial_score efficiency_gain_percentage quality_score
       employee_satisfaction operational_score health_score health_status].

Lemma score_row_health_score today fin op i :
  let r := score_row today fin op i in
  exists q, operational_score r = Fin q /\ 0 <= q <= 20
    /\ health_score r
       = Fin (inject_Z (budget_score r + time_score r + financial_score r) + q).
Proof.
  cbv zeta. row_fields.
  match goal with |- context [clamp_0_20 ?x] =>
    destruct (clamp_0_20_band x) as (q & Hq & Hb) end.
  exists q. rewrite Hq. auto.
Qed.

Lemma score_row_health_range today fin op i :
  exists h, health_score (score_row today fin op i) = Fin h /\ 0 <= h <= 100.
Proof.
  destruct (score_row_health_score today fin op i) as (q & _ & Hq & Hs).
  eexists. split; [exact Hs|]. row_fields.
  match goal with |- context [budget_score_fn ?x] =>
    pose proof (budget_score_fn_band x) as Hb; set (b := budget_score_fn x) in * end.
  match goal with |- context [time_score_fn ?s ?x] =>
    pose proof (time_score_fn_band s x) as Ht; set (t := time_score_fn s x) in * end.
  match goal with |- context [financial_score_fn ?x] =>
    pose proof (financial_score_fn_band x) as Hf;
    set (f := financial_score_fn x) in * end.
  assert (H0 : (0 <= b + t + f)%Z) by lia.
  assert (H1 : (b + t + f <= 80)%Z) by lia.
  rewrite Zle_Qle in H0, H1.
  change (inject_Z 0) with 0 in H0. change (inject_Z 80) with 80 in H1.
  lra.
Qed.

(** ** Concrete portfolios *)

Definition day (d : Z) : Z := (d * NS_PER_DAY)%Z.

(** Scenario A: budget used at 85%, completed, mean ROI 22, operational
    means 10 / 90 / 8. *)
Definition initA : Initiative :=
  InitiativeData.mk "A" "CRM Migration to Salesforce" "Digital"
    (day 20000) (day 20100) (Fin 100000) (Fin 85000) "Completed"
    "owner" "".

Definition finA : list FinancialMetric.t :=
  [ FinancialMetric.mk "A" (day 20001) (Fin 1000) (Fin 500) (Fin 20)
      (Fin 0) (Fin 0);
    FinancialMetric.mk "A" (day 20002) (Fin 3000) (Fin 700) (Fin 24)
      (Fin 0) (Fin 0) ].

Definition opA : list OperationalMetric.t :=
  [ OperationalMetric.mk "A" (day 20001) (Fin 10) (Fin 4) (Fin 90) (Fin 8)
      (Fin 9) ].

(** Scenario B: budget used at 130%, half as late again as planned, in
    progress, ROI -5, satisfaction 5. *)
Definition initB : Initiative :=
  InitiativeData.mk "B" "Supply Chain Automation" "Operational"
    (day 20000) (day 20100) (Fin 100000) (Fin 130000) "In Progress"
    "owner" "".

Definition finB : list FinancialMetric.t :=
  [ FinancialMetric.mk "B" (day 20001) (Fin 100) (Fin 50) (Fin (-5))
      (Fin 0) (Fin 0) ].

Definition opB : list OperationalMetric.t :=
  [ OperationalMetric.mk "B" (day 20001) (Fin 1) (Fin 4) (Fin 40) (Fin 5)
      (Fin 9) ].

(** The clock of the scenarios: noon, 150 days after the start. *)
Definition todayAB : Z := (day 20150 + 12 * 3600 * 1000000000)%Z.

Definition rowA : HealthRow :=
  mkHealth (score_row todayAB (finA ++ finB) (opA ++ opB) initA)
           (day 20100) [].

Definition rowB : HealthRow :=
  mkHealth (score_row todayAB (finA ++ finB) (opA ++ opB) initB)
           (day 20100)
           ["Budget Overrun"; "Schedule Delay"; "Low ROI"; "Team Satisfaction"].

Lemma dfAB_ok :
  calculate_initiative_health_scores todayAB [initA; initB]
    (finA ++ finB) (opA ++ opB) = Ok [rowA; rowB].
Proof. vm_compute. reflexivity. Qed.

(* ================================================================= *)
(** ** Health score *)

(** C1.  In every row of the frame returned by
    [calculate_initiative_health_scores], the health score is the sum of the
    budget, time, financial and operational scores, each sub-score lies in
    its band (0-25, 0-25, 0-30, and 0-20 for the clamped operational score),
    and the health score lies between 0 and 100. *)
Theorem health_score_sum_in_range today inits fin op df (row : HealthRow) :
  calculate_initiative_health_scores today inits fin op = Ok df ->
  In row df ->
  health_score row
    = fadd (of_Z (budget_score row + time_score row + financial_score row))
           (operational_score row)
  /\ (0 <= budget_score row <= 25)%Z
  /\ (0 <= time_score row <= 25)%Z
  /\ (0 <= financial_score row <= 30)%Z
  /\ Fle (Fin 0) (operational_score row) /\ Fle (operational_score row) (Fin 20)
  /\ Fle (Fin 0) (health_score row) /\ Fle (health_score row) (Fin 100).
Proof.
  intros Hdf Hin.
  destruct (health_df_row _ _ _ _ _ _ Hdf Hin) as (i & _ & Hrow & _).
  rewrite Hrow.
  destruct (score_row_health_score today fin op i) as (q & Hop & Hq & _).
  destruct (score_row_health_range today fin op i) as (h & Hh & Hhb).
  rewrite Hh, Hop. rewrite !Fle_Fin.
  repeat split; try tauto.
  - rewrite <- Hh, <- Hop. reflexivity.
  - apply budget_score_fn_band.
  - apply budget_score_fn_band.
  - apply time_score_fn_band.
  - apply time_score_fn_band.
  - apply financial_score_fn_band.
  - apply financial_score_fn_band.
Qed.

Lemma health_score_sum_in_range_witness :
  calculate_initiative_health_scores todayAB [initA; initB]
    (finA ++ finB) (opA ++ opB) = Ok [rowA; rowB]
  /\ In rowB [rowA; rowB]
  /\ Fle (Fin 0) (health_score rowB) /\ Fle (health_score rowB) (Fin 100).
Proof.
  split; [vm_compute; reflexivity|]. split; [right; left; reflexivity|].
  apply (health_score_sum_in_range todayAB [initA; initB]
           (finA ++ finB) (opA ++ opB) [rowA; rowB] rowB);
    [vm_compute; reflexivity | right; left; reflexivity].
Defined.

(* ================================================================= *)
(** ** Budget score *)

Lemma budget_score_fn_cases (u : fnum) :
  (budget_score_fn u = 25%Z <-> Fle (Fin 0.8) u /\ Fle u (Fin 1.0))
  /\ (budget_score_fn u = 20%Z <->
        (Fle (Fin 0.6) u /\ Flt u (Fin 0.8))
        \/ (Flt (Fin 1.0) u /\ Fle u (Fin 1.1)))
  /\ (budget_score_fn u = 10%Z <->
        (Fle (Fin 0.4) u /\ Flt u (Fin 0.6))
        \/ (Flt (Fin 1.1) u /\ Fle u (Fin 1.2)))
  /\ (budget_score_fn u = 0%Z <->
        ~ (Fle (Fin 0.8) u /\ Fle u (Fin 1.0))
        /\ ~ ((Fle (Fin 0.6) u /\ Flt u (Fin 0.8))
              \/ (Flt (Fin 1.0) u /\ Fle u (Fin 1.1)))
        /\ ~ ((Fle (Fin 0.4) u /\ Flt u (Fin 0.6))
              \/ (Flt (Fin 1.1) u /\ Fle u (Fin 1.2)))).
Proof.
  unfold budget_score_fn. destruct u as [q| | |].
  - rewrite !Fle_Fin, !Flt_Fin. unfold fle, flt, Qlt_bool.
    qtests; cbn [andb orb negb];
      repeat split; intros; try discriminate; try lra; try tauto.
  - unfold Fle, Flt; cbn; intuition discriminate.
  - unfold Fle, Flt; cbn; intuition discriminate.
  - unfold Fle, Flt; cbn; intuition discriminate.
Qed.

(** C9.  In every row of the returned frame, the budget utilization is the
    spent budget divided by the allocated budget, and the budget score is 25
    on [0.8, 1.0], 20 on [0.6, 0.8) and (1.0, 1.1], 10 on [0.4, 0.6) and
    (1.1, 1.2], and 0 everywhere else. *)
Theorem budget_score_piecewise today inits fin op df (row : HealthRow) :
  calculate_initiative_health_scores today inits fin op = Ok df ->
  In row df ->
  let u := budget_utilization row in
  u = fdiv (InitiativeData.budget_spent row) (InitiativeData.budget_allocated row)
  /\ (budget_score row = 25%Z <-> Fle (Fin 0.8) u /\ Fle u (Fin 1.0))
  /\ (budget_score row = 20%Z <->
        (Fle (Fin 0.6) u /\ Flt u (Fin 0.8))
        \/ (Flt (Fin 1.0) u /\ Fle u (Fin 1.1)))
  /\ (budget_score row = 10%Z <->
        (Fle (Fin 0.4) u /\ Flt u (Fin 0.6))
        \/ (Flt (Fin 1.1) u /\ Fle u (Fin 1.2)))
  /\ (budget_score row = 0%Z <->
        ~ (Fle (Fin 0.8) u /\ Fle u (Fin 1.0))
        /\ ~ ((Fle (Fin 0.6) u /\ Flt u (Fin 0.8))
              \/ (Flt (Fin 1.0) u /\ Fle u (Fin 1.1)))
        /\ ~ ((Fle (Fin 0.4) u /\ Flt u (Fin 0.6))
              \/ (Flt (Fin 1.1) u /\ Fle u (Fin 1.2)))).
Proof.
  intros Hdf Hin u. subst u.
  destruct (health_df_row _ _ _ _ _ _ Hdf Hin) as (i & _ & Hrow & _).
  rewrite Hrow. split; [reflexivity|].
  row_fields. apply budget_score_fn_cases.
Qed.

Lemma budget_score_piecewise_witness :
  calculate_initiative_health_scores todayAB [initA; initB]
    (finA ++ finB) (opA ++ opB) = Ok [rowA; rowB]
  /\ In rowA [rowA; rowB]
  /\ (budget_score rowA = 25%Z <->
        Fle (Fin 0.8) (budget_utilization rowA)
        /\ Fle (budget_utilization rowA) (Fin 1.0)).
Proof.
  split; [vm_compute; reflexivity|]. split; [left; reflexivity|].
  apply (budget_score_piecewise todayAB [initA; initB]
           (finA ++ finB) (opA ++ opB) [rowA; rowB] rowA);
    [vm_compute; reflexivity | left; reflexivity].
Defined.

(* ================================================================= *)
(** ** Classification *)

Lemma health_status_fn_cases (x : fnum) :
  isna x = false ->
  (health_status_fn x = "Excellent" <-> Fle (Fin 80) x)
  /\ (health_status_fn x = "Good" <-> Fle (Fin 65) x /\ Flt x (Fin 80))
  /\ (health_status_fn x = "Warning" <-> Fle (Fin 50) x /\ Flt x (Fin 65))
  /\ (health_status_fn x = "Critical" <-> Flt x (Fin 50)).
Proof.
  unfold health_status_fn, fge. destruct x as [q| | |]; intros Hna.
  - rewrite !Fle_Fin, !Flt_Fin. unfold fle.
    qtests; repeat split; intros; try discriminate; try lra; try tauto.
  - unfold Fle, Flt; cbn; intuition discriminate.
  - unfold Fle, Flt; cbn; intuition discriminate.
  - discriminate.
Qed.

(** C7.  In every row of the returned frame the health status is a function
    of the health score alone: Excellent from 80 up, Good on [65, 80),
    Warning on [50, 65), Critical below 50; so 79.9 is Good, 80.0 Excellent,
    64.9 Warning, 65.0 Good, 49.9 Critical and 50.0 Warning. *)
Theorem health_status_thresholds today inits fin op df (row : HealthRow) :
  calculate_initiative_health_scores today inits fin op = Ok df ->
  In row df ->
  let x := health_score row in
  health_status row = health_status_fn x
  /\ (health_status row = "Excellent" <-> Fle (Fin 80) x)
  /\ (health_status row = "Good" <-> Fle (Fin 65) x /\ Flt x (Fin 80))
  /\ (health_status row = "Warning" <-> Fle (Fin 50) x /\ Flt x (Fin 65))
  /\ (health_status row = "Critical" <-> Flt x (Fin 50))
  /\ health_status_fn (Fin 79.9) = "Good"
  /\ health_status_fn (Fin 80.0) = "Excellent"
  /\ health_status_fn (Fin 64.9) = "Warning"
  /\ health_status_fn (Fin 65.0) = "Good"
  /\ health_status_fn (Fin 49.9) = "Critical"
  /\ health_status_fn (Fin 50.0) = "Warning".
Proof.
  intros Hdf Hin x. subst x.
  destruct (health_df_row _ _ _ _ _ _ Hdf Hin) as (i & _ & Hrow & _).
  rewrite Hrow.
  destruct (score_row_health_range today fin op i) as (h & Hh & _).
  assert (Hst : health_status (score_row today fin op i)
                = health_status_fn (health_score (score_row today fin op i)))
    by reflexivity.
  rewrite Hst.
  assert (Hna : isna (health_score (score_row today fin op i)) = false)
    by (rewrite Hh; reflexivity).
  pose proof (health_status_fn_cases _ Hna) as (HE & HG & HW & HC).
  split; [reflexivity|]. split; [exact HE|]. split; [exact HG|].
  split; [exact HW|]. split; [exact HC|].
  repeat split; reflexivity.
Qed.

Lemma health_status_thresholds_witness :
  calculate_initiative_health_scores todayAB [initA; initB]
    (finA ++ finB) (opA ++ opB) = Ok [rowA; rowB]
  /\ In rowA [rowA; rowB]
  /\ (health_status rowA = "Excellent" <-> Fle (Fin 80) (health_score rowA)).
Proof.
  split; [vm_compute; reflexivity|]. split; [left; reflexivity|].
  apply (health_status_thresholds todayAB [initA; initB]
           (finA ++ finB) (opA ++ opB) [rowA; rowB] rowA);
    [vm_compute; reflexivity | left; reflexivity].
Defined.

(* ================================================================= *)
(** ** Time score *)

Lemma Qcompare_inject_Z_0 (z : Z) : (inject_Z z ?= 0) = (z ?= 0)%Z.
Proof. unfold Qcompare; simpl. rewrite Z.mul_1_r. reflexivity. Qed.

(** The quotient of two day counts when the planned duration is zero. *)
Lemma time_progress_zero_duration (d : Z) :
  fdiv (of_Z d) (of_Z 0)
  = match (d ?= 0)%Z with Eq => NaN | Lt => NInf | Gt => PInf end.
Proof.
  unfold fdiv, of_Z. rewrite !Qcompare_inject_Z_0. reflexivity.
Qed.

Lemma Fle_upper (x : fnum) (a b : Q) :
  Fle x (Fin a) -> a <= b -> Fle x (Fin b).
Proof.
  destruct x as [q| | |]; unfold Fle; cbn; try congruence.
  intros H Hab. apply Qle_bool_iff in H. apply Qle_bool_iff. lra.
Qed.

Lemma time_score_fn_chain (s : string) (tp : fnum) :
  (s = "Completed" -> time_score_fn s tp = 25%Z)
  /\ (s <> "Completed" ->
        (Fle tp (Fin 0.9) -> time_score_fn s tp = 20%Z)
        /\ (~ Fle tp (Fin 0.9) -> Fle tp (Fin 1.0) -> time_score_fn s tp = 15%Z)
        /\ (~ Fle tp (Fin 1.0) -> Fle tp (Fin 1.2) -> time_score_fn s tp = 5%Z)
        /\ (~ Fle tp (Fin 1.2) -> time_score_fn s tp = 0%Z)).
Proof.
  unfold time_score_fn, Fle. split.
  - intros ->. reflexivity.
  - intros Hs. apply String.eqb_neq in Hs. rewrite Hs.
    assert (H1 : fle tp (Fin 0.9) = true -> fle tp (Fin 1.0) = true)
      by (intros H; apply (Fle_upper tp 0.9 1.0); [exact H|lra]).
    assert (H2 : fle tp (Fin 1.0) = true -> fle tp (Fin 1.2) = true)
      by (intros H; apply (Fle_upper tp 1.0 1.2); [exact H|lra]).
    destruct (fle tp (Fin 0.9)), (fle tp (Fin 1.0)), (fle tp (Fin 1.2));
      intuition congruence.
Qed.

(** A planning-stage initiative that starts and ends on the same day, fifty
    days after the clock of the scenarios. *)
Definition initC : Initiative :=
  InitiativeData.mk "C" "Remote Work Infrastructure" "HR"
    (day 20200) (day 20200) (Fin 100000) (Fin 90000) "Planning"
    "owner" "".

Definition rowC : HealthRow :=
  mkHealth (score_row todayAB [] [] initC) (day 20200) [].

(** C6, as stated, fails: with the start date equal to the target end date
    and a start that lies ahead of the clock, a planning-stage initiative
    has time progress -inf and gets the time score 20, not 0. *)
Lemma time_score_zero_duration_counterexample :
  calculate_initiative_health_scores todayAB [initC] [] [] = Ok [rowC]
  /\ InitiativeData.start_date rowC = InitiativeData.target_end_date rowC
  /\ InitiativeData.status rowC <> "Completed"
  /\ total_duration rowC = 0%Z
  /\ time_progress rowC = NInf
  /\ time_score rowC = 20%Z
  /\ time_score rowC <> 0%Z.
Proof.
  split; [vm_compute; reflexivity|].
  split; [reflexivity|]. split; [discriminate|].
  split; [reflexivity|]. split; [reflexivity|].
  split; [reflexivity|discriminate].
Qed.

(** C6, amended.  In every row of the returned frame, time progress is the
    days since the start divided by the planned duration in days, and the
    time score is 25 for a Completed initiative, otherwise 20 if time
    progress is at most 0.9, 15 if at most 1.0, 5 if at most 1.2, and 0
    otherwise.  A planned duration of zero raises no error: a
    non-Completed initiative then gets 0 when the start is not ahead of the
    clock (time progress +inf or NaN) and 20 when it is (time progress
    -inf). *)
Theorem time_score_bands today inits fin op df (row : HealthRow) :
  calculate_initiative_health_scores today inits fin op = Ok df ->
  In row df ->
  let tp := time_progress row in
  let st := InitiativeData.status row in
  days_since_start row = td_days (today - InitiativeData.start_date row)
  /\ total_duration row
     = td_days (InitiativeData.target_end_date row - InitiativeData.start_date row)
  /\ tp = fdiv (of_Z (days_since_start row)) (of_Z (total_duration row))
  /\ (st = "Completed" -> time_score row = 25%Z)
  /\ (st <> "Completed" ->
        (Fle tp (Fin 0.9) -> time_score row = 20%Z)
        /\ (~ Fle tp (Fin 0.9) -> Fle tp (Fin 1.0) -> time_score row = 15%Z)
        /\ (~ Fle tp (Fin 1.0) -> Fle tp (Fin 1.2) -> time_score row = 5%Z)
        /\ (~ Fle tp (Fin 1.2) -> time_score row = 0%Z))
  /\ (st <> "Completed" -> total_duration row = 0%Z ->
        ((0 <= days_since_start row)%Z -> time_score row = 0%Z)
        /\ ((days_since_start row < 0)%Z -> time_score row = 20%Z)).
Proof.
  intros Hdf Hin tp st. subst tp st.
  destruct (health_df_row _ _ _ _ _ _ Hdf Hin) as (i & _ & Hrow & _).
  rewrite Hrow. row_fields.
  split; [reflexivity|]. split; [reflexivity|]. split; [reflexivity|].
  split; [apply time_score_fn_chain|]. split; [apply time_score_fn_chain|].
  intros Hs Hd. rewrite Hd, time_progress_zero_duration.
  apply String.eqb_neq in Hs. unfold time_score_fn. rewrite Hs.
  set (d := td_days (today - InitiativeData.start_date i)).
  split; intros Hsgn.
  - destruct (Z.compare_spec d 0); [reflexivity|lia|reflexivity].
  - destruct (Z.compare_spec d 0); [lia|reflexivity|lia].
Qed.

Lemma time_score_bands_witness :
  calculate_initiative_health_scores todayAB [initC] [] [] = Ok [rowC]
  /\ In rowC [rowC]
  /\ (InitiativeData.status rowC <> "Completed" -> total_duration rowC = 0%Z ->
        ((0 <= days_since_start rowC)%Z -> time_score rowC = 0%Z)
        /\ ((days_since_start rowC < 0)%Z -> time_score rowC = 20%Z)).
Proof.
  split; [vm_compute; reflexivity|]. split; [left; reflexivity|].
  apply (time_score_bands todayAB [initC] [] [] [rowC] rowC);
    [vm_compute; reflexivity | left; reflexivity].
Defined.

(* ================================================================= *)
(** ** Predicted completion date *)

Lemma Fle_not_gt (x y : fnum) : Fle x y -> flt y x = false.
Proof.
  unfold Fle. destruct x as [a| | |], y as [b| | |]; cbn; try congruence.
  intros H. apply Qlt_bool_false. apply Qle_bool_iff. exact H.
Qed.





(** C8.  In every row of the returned frame the predicted completion date
    is the target end date when the status is Completed; otherwise, when
    time progress is positive, it is the start date plus
    days_since_start / max(time_progress, 0.1) days; and when time progress
    is zero or negative it is the target end date. *)
Theorem predicted_completion_date_cases today inits fin op df (row : HealthRow) :
  calculate_initiative_health_scores today inits fin op = Ok df ->
  In row df ->
  let tp := time_progress row in
  let st := InitiativeData.status row in
  (st = "Completed" ->
     predicted_completion_date row = InitiativeData.target_end_date row)
  /\ (st <> "Completed" -> Flt (Fin 0) tp ->
        exists td,
          timedelta_days (fdiv (of_Z (days_since_start row))
                               (py_max tp (Fin 0.1))) = Ok td
          /\ predicted_completion_date row
             = (InitiativeData.start_date row + td)%Z)
  /\ (st <> "Completed" -> Fle tp (Fin 0) ->
        predicted_completion_date row = InitiativeData.target_end_date row).
Proof.
  intros Hdf Hin tp st. subst tp st.
  destruct (health_df_row _ _ _ _ _ _ Hdf Hin) as (i & _ & _ & Hp & _).
  unfold _predict_completion_date in Hp.
  split; [|split].
  - intros Hs. rewrite Hs in Hp. cbn in Hp. congruence.
  - intros Hs Hpos. apply String.eqb_neq in Hs. rewrite Hs in Hp.
    unfold fgt in Hp. unfold Flt in Hpos. rewrite Hpos in Hp.
    destruct (timedelta_days _) as [td|e]; cbn in Hp; [|discriminate].
    exists td. split; [reflexivity|congruence].
  - intros Hs Hneg. apply String.eqb_neq in Hs. rewrite Hs in Hp.
    unfold fgt in Hp. rewrite (Fle_not_gt _ _ Hneg) in Hp. congruence.
Qed.

Lemma predicted_completion_date_cases_witness :
  calculate_initiative_health_scores todayAB [initA; initB]
    (finA ++ finB) (opA ++ opB) = Ok [rowA; rowB]
  /\ In rowB [rowA; rowB]
  /\ InitiativeData.status rowB <> "Completed"
  /\ Flt (Fin 0) (time_progress rowB)
  /\ exists td,
       timedelta_days (fdiv (of_Z (days_since_start rowB))
                            (py_max (time_progress rowB) (Fin 0.1))) = Ok td
       /\ predicted_completion_date rowB
          = (InitiativeData.start_date rowB + td)%Z.
Proof.
  split; [vm_compute; reflexivity|]. split; [right; left; reflexivity|].
  split; [discriminate|]. split; [vm_compute; reflexivity|].
  apply (predicted_completion_date_cases todayAB [initA; initB]
           (finA ++ finB) (opA ++ opB) [rowA; rowB] rowB);
    [vm_compute; reflexivity | right; left; reflexivity | discriminate
    | vm_compute; reflexivity].
Defined.

(* ================================================================= *)
(** ** Risk factors *)

Definition tag_if (c : bool) (tag : string) : list string :=
  if c then [tag] else [].

(** The four tests of [_identify_risk_factors], in the order of the source,
    each contributing its tag or nothing.  The ROI and the satisfaction are
    read as they stand in the row: NaN when the aggregate is missing. *)
Lemma _identify_risk_factors_tags (row : ScoredRow) :
  _identify_risk_factors row
  = tag_if (fgt (budget_utilization row) (Fin 1.1)) "Budget Overrun"
    ++ tag_if (fgt (time_progress row) (Fin 1.0)
               && negb (InitiativeData.status row =? "Completed")%string)
              "Schedule Delay"
    ++ tag_if (flt (roi_percentage row) (Fin 5)) "Low ROI"
    ++ tag_if (flt (employee_satisfaction row) (Fin 6)) "Team Satisfaction".
Proof.
  unfold _identify_risk_factors, tag_if.
  destruct (fgt (budget_utilization row) (Fin 1.1)),
    (fgt (time_progress row) (Fin 1.0)
     && negb (InitiativeData.status row =? "Completed")%string),
    (flt (roi_percentage row) (Fin 5)),
    (flt (employee_satisfaction row) (Fin 6)); reflexivity.
Qed.

(** The same on the rows of the returned frame: the tags appear in the
    order of the four tests and no other tag appears. *)
Lemma risk_factors_of_rows today inits fin op df (row : HealthRow) :
  calculate_initiative_health_scores today inits fin op = Ok df ->
  In row df ->
  risk_factors row
  = tag_if (fgt (budget_utilization row) (Fin 1.1)) "Budget Overrun"
    ++ tag_if (fgt (time_progress row) (Fin 1.0)
               && negb (InitiativeData.status row =? "Completed")%string)
              "Schedule Delay"
    ++ tag_if (flt (roi_percentage row) (Fin 5)) "Low ROI"
    ++ tag_if (flt (employee_satisfaction row) (Fin 6)) "Team Satisfaction".
Proof.
  intros Hdf Hin.
  destruct (health_df_row _ _ _ _ _ _ Hdf Hin) as (i & _ & _ & _ & Hr).
  rewrite Hr. apply _identify_risk_factors_tags.
Qed.

(** For the satisfaction test a missing aggregate and the default 8 agree:
    neither is below 6. *)
Lemma satisfaction_test_default (sat : fnum) :
  flt sat (Fin 6) = flt (fillna (Fin 8) sat) (Fin 6).
Proof. destruct sat; reflexivity. Qed.

(** For the ROI test they differ: a missing aggregate is not below 5, the
    default 0 is. *)
Lemma roi_test_default_differs :
  flt NaN (Fin 5) = false /\ flt (fillna (Fin 0) NaN) (Fin 5) = true.
Proof. split; reflexivity. Qed.

(** An initiative in progress, half way through its plan, with 90% of its
    budget spent and no financial or operational sample. *)
Definition initD : Initiative :=
  InitiativeData.mk "D" "Digital Customer Portal" "Digital"
    (day 20100) (day 20200) (Fin 100000) (Fin 90000) "In Progress"
    "owner" "".

Definition rowD : HealthRow :=
  mkHealth (score_row todayAB finA opA initD) (day 20200) [].

(** C2, at an initiative without financial samples: the aggregated ROI is
    missing, the financial score counts it as 0 (score 10, the band of
    0 <= ROI < 5), and 0 is below 5, yet the list of risk factors carries
    no 'Low ROI' tag. *)
Theorem risk_factors_missing_roi_not_flagged :
  calculate_initiative_health_scores todayAB [initD] finA opA = Ok [rowD]
  /\ financial_group finA (InitiativeData.initiative_id initD) = []
  /\ roi_percentage rowD = NaN
  /\ financial_score rowD = financial_score_fn (Fin 0)
  /\ flt (fillna (Fin 0) (roi_percentage rowD)) (Fin 5) = true
  /\ ~ In "Low ROI" (risk_factors rowD)
  /\ risk_factors rowD = [].
Proof.
  split; [vm_compute; reflexivity|]. split; [reflexivity|].
  split; [reflexivity|]. split; [reflexivity|]. split; [reflexivity|].
  split; [intros []|reflexivity].
Qed.

(* ================================================================= *)
(** ** Portfolio roll-up *)

(** The rows with a health score below 50, by the plain filter. *)
Definition naive_at_risk (health_df : list HealthRow) : list HealthRow :=
  filter (fun r : HealthRow => flt (health_score r) (Fin 50)) health_df.

Lemma len_nil_iff {A} (l : list A) : (0 <? len l)%Z = false -> l = [].
Proof.
  destruct l; [reflexivity|]. unfold len. cbn [List.length].
  intros H. apply Z.ltb_ge in H. lia.
Qed.

(** The bucket is the plain filter for any frame: the two guards on the
    length only restate what an empty selection gives. *)
Lemma at_risk_is_naive_filter now health_df financial_df :
  let m := calculate_portfolio_metrics now health_df financial_df in
  AtRisk.count (at_risk_initiatives m) = len (naive_at_risk health_df)
  /\ AtRisk.names (at_risk_initiatives m)
     = map name_of (naive_at_risk health_df)
  /\ AtRisk.total_budget (at_risk_initiatives m)
     = pd_sum (map budget_allocated_of (naive_at_risk health_df)).
Proof.
  cbn. fold (naive_at_risk health_df).
  destruct (0 <? len (naive_at_risk health_df))%Z eqn:E; [auto|].
  rewrite (len_nil_iff _ E). auto.
Qed.

Lemma count_filter_map {A} (f : A -> string) (p : A -> bool) (key : string)
      (l : list A) :
  (forall a, In a l -> String.eqb key (f a) = p a) ->
  value_count key (map f l) = len (filter p l).
Proof.
  unfold value_count, len. intros H. f_equal.
  induction l as [|a t IH]; [reflexivity|]. cbn.
  rewrite (H a (or_introl eq_refl)).
  destruct (p a); cbn; rewrite IH; auto.
  all: intros b Hb; apply H; right; exact Hb.
Qed.

(** On a scored row, the Critical classification and the at-risk test are
    the same test. *)
Lemma critical_iff_at_risk today fin op i :
  let r := score_row today fin op i in
  String.eqb "Critical" (health_status r) = flt (health_score r) (Fin 50).
Proof.
  cbv zeta.
  destruct (score_row_health_range today fin op i) as (h & Hh & _).
  assert (Hst : health_status (score_row today fin op i)
                = health_status_fn (health_score (score_row today fin op i)))
    by reflexivity.
  rewrite Hst, Hh.
  destruct (health_status_fn_cases (Fin h) eq_refl) as (_ & _ & _ & HC).
  unfold Flt in HC. destruct (flt (Fin h) (Fin 50)).
  - apply String.eqb_eq. symmetry. apply HC. reflexivity.
  - apply String.eqb_neq. intros E. symmetry in E. apply HC in E. discriminate.
Qed.

(** C4.  For the frame returned by the scorer, the at-risk bucket of the
    portfolio metrics is the plain filter health_score < 50: same count,
    same names in the same order, same sum of allocated budgets; and its
    count is the 'critical' entry of the health distribution. *)
Theorem at_risk_bucket_matches today now inits fin op df :
  calculate_initiative_health_scores today inits fin op = Ok df ->
  let m := calculate_portfolio_metrics now df fin in
  AtRisk.count (at_risk_initiatives m) = len (naive_at_risk df)
  /\ AtRisk.names (at_risk_initiatives m) = map name_of (naive_at_risk df)
  /\ AtRisk.total_budget (at_risk_initiatives m)
     = pd_sum (map budget_allocated_of (naive_at_risk df))
  /\ AtRisk.count (at_risk_initiatives m)
     = HealthDistribution.critical (health_distribution m).
Proof.
  intros Hdf m.
  destruct (at_risk_is_naive_filter now df fin) as (Hc & Hn & Hb).
  fold m in Hc, Hn, Hb.
  split; [exact Hc|]. split; [exact Hn|]. split; [exact Hb|].
  rewrite Hc. subst m. cbn. symmetry.
  apply (count_filter_map (fun r : HealthRow => health_status r)).
  intros r Hr.
  destruct (health_df_row _ _ _ _ _ _ Hdf Hr) as (i & _ & Hrow & _).
  rewrite Hrow. apply critical_iff_at_risk.
Qed.

Lemma at_risk_bucket_matches_witness :
  calculate_initiative_health_scores todayAB [initA; initB]
    (finA ++ finB) (opA ++ opB) = Ok [rowA; rowB]
  /\ AtRisk.names
       (at_risk_initiatives
          (calculate_portfolio_metrics todayAB [rowA; rowB] (finA ++ finB)))
     = map name_of (naive_at_risk [rowA; rowB]).
Proof.
  split; [vm_compute; reflexivity|].
  apply (at_risk_bucket_matches todayAB todayAB [initA; initB]
           (finA ++ finB) (opA ++ opB) [rowA; rowB]).
  vm_compute; reflexivity.
Defined.

(** The rows predicted to complete no later than 30 days after [now]. *)
Definition due_within_30_days (now : Z) (health_df : list HealthRow)
  : list HealthRow :=
  filter (fun r => (predicted_completion_date r <=? now + 30 * NS_PER_DAY)%Z)
         health_df.

(** C5, as stated, fails: the completed initiative of scenario A has a
    predicted completion date fifty days before the computation timestamp,
    and it is listed among the upcoming completions. *)
Lemma upcoming_completions_past_counterexample :
  (predicted_completion_date rowA < todayAB)%Z
  /\ In (name_of rowA)
        (Upcoming.names
           (upcoming_completions
              (calculate_portfolio_metrics todayAB [rowA; rowB]
                 (finA ++ finB))))
  /\ Upcoming.count
       (upcoming_completions
          (calculate_portfolio_metrics todayAB [rowA; rowB] (finA ++ finB)))
     = 2%Z.
Proof.
  split; [vm_compute; reflexivity|]. split; [left; reflexivity|reflexivity].
Qed.

(** C5, amended.  The upcoming-completions bucket (count and names, in the
    order of the frame) holds exactly the initiatives whose predicted
    completion date is no later than 30 days after the computation
    timestamp; there is no lower bound, so a predicted date in the past is a
    member as well. *)
Theorem upcoming_completions_upper_bound now health_df financial_df
        (r : HealthRow) :
  In r health_df ->
  let m := calculate_portfolio_metrics now health_df financial_df in
  Upcoming.count (upcoming_completions m)
    = len (due_within_30_days now health_df)
  /\ Upcoming.names (upcoming_completions m)
     = map name_of (due_within_30_days now health_df)
  /\ (In r (due_within_30_days now health_df)
      <-> (predicted_completion_date r <= now + 30 * NS_PER_DAY)%Z)
  /\ ((predicted_completion_date r < now)%Z ->
      In (name_of r) (Upcoming.names (upcoming_completions m))).
Proof.
  intros Hin m. subst m. cbn. fold (due_within_30_days now health_df).
  assert (Hmem : In r (due_within_30_days now health_df)
                 <-> (predicted_completion_date r <= now + 30 * NS_PER_DAY)%Z).
  { unfold due_within_30_days. rewrite filter_In, Z.leb_le. tauto. }
  split; [reflexivity|]. split; [reflexivity|]. split; [exact Hmem|].
  intros Hpast. apply in_map. apply Hmem. unfold NS_PER_DAY. lia.
Qed.

Lemma upcoming_completions_upper_bound_witness :
  In rowA [rowA; rowB]
  /\ ((predicted_completion_date rowA < todayAB)%Z ->
      In (name_of rowA)
         (Upcoming.names
            (upcoming_completions
               (calculate_portfolio_metrics todayAB [rowA; rowB]
                  (finA ++ finB))))).
Proof.
  split; [left; reflexivity|].
  apply (upcoming_completions_upper_bound todayAB [rowA; rowB] (finA ++ finB)
           rowA).
  left; reflexivity.
Defined.

(** An all-zero portfolio: one initiative in progress with nothing allocated
    and nothing spent, and one financial sample of zeros. *)
Definition initZ : Initiative :=
  InitiativeData.mk "Z" "Cost Reduction Program" "Financial"
    (day 20100) (day 20200) (Fin 0) (Fin 0) "In Progress" "owner" "".

Definition finZ : list FinancialMetric.t :=
  [ FinancialMetric.mk "Z" (day 20101) (Fin 0) (Fin 0) (Fin 0) (Fin 0) (Fin 0) ].

Definition rowZ : HealthRow :=
  mkHealth (score_row todayAB finZ [] initZ) (day 20200) ["Low ROI"].

(** C3, as stated, fails: on the all-zero portfolio both sums are zero and
    both rates are NaN, not a finite fallback value; the same holds on the
    portfolio without rows. *)
Lemma portfolio_rates_all_zero_counterexample :
  calculate_initiative_health_scores todayAB [initZ] finZ [] = Ok [rowZ]
  /\ total_budget_allocated (calculate_portfolio_metrics todayAB [rowZ] finZ)
     = Fin (0 + 0)
  /\ total_budget_spent (calculate_portfolio_metrics todayAB [rowZ] finZ)
     = Fin (0 + 0)
  /\ budget_utilization_rate (calculate_portfolio_metrics todayAB [rowZ] finZ)
     = NaN
  /\ portfolio_roi (calculate_portfolio_metrics todayAB [rowZ] finZ) = NaN
  /\ budget_utilization_rate (calculate_portfolio_metrics todayAB [] []) = NaN
  /\ portfolio_roi (calculate_portfolio_metrics todayAB [] []) = NaN.
Proof.
  split; [vm_compute; reflexivity|]. repeat split; reflexivity.
Qed.

Lemma fdiv_zero_not_finite (x : fnum) (z : Q) :
  z == 0 -> finite (fdiv x (Fin z)) = false.
Proof.
  intros Hz. apply Qeq_alt in Hz.
  destruct x as [a| | |]; cbn; rewrite ?Hz; try reflexivity.
  destruct (a ?= 0); reflexivity.
Qed.

Lemma fmul_100_not_finite (x : fnum) :
  finite x = false -> finite (fmul x (Fin 100)) = false.
Proof. destruct x; cbn; try discriminate; reflexivity. Qed.

Lemma fsub_1_not_finite (x : fnum) :
  finite x = false -> finite (fsub x (Fin 1)) = false.
Proof. destruct x; cbn; try discriminate; reflexivity. Qed.

(** C3, amended.  [calculate_portfolio_metrics] is defined on every input
    and has no guard on its two divisions: the utilization rate is
    spent / allocated * 100 and the portfolio ROI is
    (impact / spent - 1) * 100 in every case, so a zero sum of allocated
    budgets makes the utilization rate NaN or infinite, and a zero sum of
    spent budgets makes the portfolio ROI NaN or infinite. *)
Theorem portfolio_rates_unguarded now health_df financial_df (a s : Q) :
  let m := calculate_portfolio_metrics now health_df financial_df in
  budget_utilization_rate m
    = fmul (fdiv (total_budget_spent m) (total_budget_allocated m)) (Fin 100)
  /\ portfolio_roi m
     = fmul (fsub (fdiv (total_financial_impact m) (total_budget_spent m))
                  (Fin 1)) (Fin 100)
  /\ (total_budget_allocated m = Fin a -> a == 0 ->
      finite (budget_utilization_rate m) = false)
  /\ (total_budget_spent m = Fin s -> s == 0 ->
      finite (portfolio_roi m) = false).
Proof.
  intros m. split; [reflexivity|]. split; [reflexivity|]. split.
  - intros Ha Hz.
    change (budget_utilization_rate m)
      with (fmul (fdiv (total_budget_spent m) (total_budget_allocated m))
                 (Fin 100)).
    rewrite Ha. apply fmul_100_not_finite, fdiv_zero_not_finite, Hz.
  - intros Hs Hz.
    change (portfolio_roi m)
      with (fmul (fsub (fdiv (total_financial_impact m) (total_budget_spent m))
                       (Fin 1)) (Fin 100)).
    rewrite Hs.
    apply fmul_100_not_finite, fsub_1_not_finite, fdiv_zero_not_finite, Hz.
Qed.

Lemma portfolio_rates_unguarded_witness :
  total_budget_allocated (calculate_portfolio_metrics todayAB [rowZ] finZ)
  = Fin (0 + 0)
  /\ 0 + 0 == 0
  /\ finite (budget_utilization_rate
               (calculate_portfolio_metrics todayAB [rowZ] finZ)) = false.
Proof.
  split; [reflexivity|]. split; [reflexivity|].
  apply (portfolio_rates_unguarded todayAB [rowZ] finZ (0 + 0) (0 + 0));
    reflexivity.
Defined.

(* ================================================================= *)
(** ** Executive summary *)

(** C10.  [create_executive_summary] divides the completed count by
    [total_initiatives] without a guard: when [total_initiatives] is 0 it
    raises ZeroDivisionError and returns no table; when it is positive
    nothing fails and the table has exactly the four KPI rows. *)
Theorem create_executive_summary_division (pm : PortfolioMetrics) :
  (total_initiatives pm = 0%Z ->
     create_executive_summary pm = Raise ZeroDivisionError)
  /\ ((0 < total_initiatives pm)%Z ->
        exists rows,
          create_executive_summary pm = Ok rows
          /\ List.length rows = 4%nat
          /\ map Summary.metric_name rows
             = ["Portfolio ROI"; "Budget Utilization"; "At-Risk Initiatives";
                "Completion Rate"]).
Proof.
  unfold create_executive_summary, py_truediv. split.
  - intros ->. reflexivity.
  - intros Hpos. destruct (total_initiatives pm =? 0)%Z eqn:E.
    + apply Z.eqb_eq in E. lia.
    + cbn. eexists. split; [reflexivity|]. split; reflexivity.
Qed.

(** The metrics of a portfolio without initiatives. *)
Definition metrics_no_initiative : PortfolioMetrics :=
  mkMetrics 0 0 0 (Fin 0) (Fin 0) NaN (Fin 0) NaN
            (HealthDistribution.mk 0 0 0 0) (AtRisk.mk 0 (Fin 0) [])
            (Upcoming.mk 0 []).

Lemma create_executive_summary_division_witness :
  (total_initiatives metrics_no_initiative = 0%Z
   /\ create_executive_summary metrics_no_initiative
      = Raise ZeroDivisionError)
  /\ ((0 < total_initiatives
             (calculate_portfolio_metrics todayAB [rowA; rowB] (finA ++ finB)))%Z
      /\ exists rows,
           create_executive_summary
             (calculate_portfolio_metrics todayAB [rowA; rowB] (finA ++ finB))
           = Ok rows
           /\ List.length rows = 4%nat
           /\ map Summary.metric_name rows
              = ["Portfolio ROI"; "Budget Utilization"; "At-Risk Initiatives";
                 "Completion Rate"]).
Proof.
  split.
  - split; [reflexivity|].
    apply (create_executive_summary_division metrics_no_initiative).
    reflexivity.
  - split; [reflexivity|].
    apply (create_executive_summary_division
             (calculate_portfolio_metrics todayAB [rowA; rowB] (finA ++ finB))).
    reflexivity.
Defined.

(* ================================================================= *)
(** * Further properties of the calculator *)

(** ** The scorer as a whole *)


(** What a row holds, column by column, in terms of the initiative it was
    computed from. *)
Lemma health_df_columns today inits fin op df (row : HealthRow) :
  calculate_initiative_health_scores today inits fin op = Ok df ->
  In row df ->
  financial_score row = financial_score_fn (fillna (Fin 0) (roi_percentage row))
  /\ time_score row = time_score_fn (InitiativeData.status row) (time_progress row)
  /\ budget_score row = budget_score_fn (budget_utilization row)
  /\ operational_score row
     = clamp_0_20 (operational_composite (efficiency_gain_percentage row)
                     (quality_score row) (employee_satisfaction row))
  /\ roi_percentage row
     = merged (financial_group fin (InitiativeData.initiative_id row)) pd_mean
              FinancialMetric.roi_percentage
  /\ efficiency_gain_percentage row
     = merged (operational_group op (InitiativeData.initiative_id row)) pd_mean
              OperationalMetric.efficiency_gain_percentage
  /\ quality_score row
     = merged (operational_group op (InitiativeData.initiative_id row)) pd_mean
              OperationalMetric.quality_score
  /\ employee_satisfaction row
     = merged (operational_group op (InitiativeData.initiative_id row)) pd_mean
              OperationalMetric.employee_satisfaction.
Proof.
  intros Hdf Hin.
  destruct (health_df_row _ _ _ _ _ _ Hdf Hin) as (i & _ & Hrow & _).
  rewrite Hrow. repeat split; reflexivity.
Qed.

(** ** Monotonicity of the financial and the time score *)

Lemma fge_upward (x y : fnum) (c : Q) :
  Fle x y -> fge x (Fin c) = true -> fge y (Fin c) = true.
Proof.
  unfold Fle, fge.
  destruct x as [a| | |], y as [b| | |]; cbn; try congruence.
  intros H1 H2. apply Qle_bool_iff in H1, H2. apply Qle_bool_iff. lra.
Qed.

Lemma financial_score_fn_monotone (x y : fnum) :
  Fle x y -> (financial_score_fn x <= financial_score_fn y)%Z.
Proof.
  intros H. unfold financial_score_fn.
  pose proof (fge_upward x y 20 H) as H20.
  pose proof (fge_upward x y 15 H) as H15.
  pose proof (fge_upward x y 10 H) as H10.
  pose proof (fge_upward x y 5 H) as H5.
  pose proof (fge_upward x y 0 H) as H0.
  destruct (fge y (Fin 20)); [destruct (fge x (Fin 20)), (fge x (Fin 15)),
    (fge x (Fin 10)), (fge x (Fin 5)), (fge x (Fin 0)); lia|].
  destruct (fge x (Fin 20)); [discriminate (H20 eq_refl)|].
  destruct (fge y (Fin 15)); [destruct (fge x (Fin 15)),
    (fge x (Fin 10)), (fge x (Fin 5)), (fge x (Fin 0)); lia|].
  destruct (fge x (Fin 15)); [discriminate (H15 eq_refl)|].
  destruct (fge y (Fin 10)); [destruct (fge x (Fin 10)), (fge x (Fin 5)),
    (fge x (Fin 0)); lia|].
  destruct (fge x (Fin 10)); [discriminate (H10 eq_refl)|].
  destruct (fge y (Fin 5)); [destruct (fge x (Fin 5)), (fge x (Fin 0)); lia|].
  destruct (fge x (Fin 5)); [discriminate (H5 eq_refl)|].
  destruct (fge y (Fin 0)); [destruct (fge x (Fin 0)); lia|].
  destruct (fge x (Fin 0)); [discriminate (H0 eq_refl)|lia].
Qed.

(** X2.  Within a frame the financial score is monotone in the mean ROI
    (read with its default 0 when missing): an initiative with a higher
    ROI never has a lower financial score. *)
Theorem financial_score_monotone today inits fin op df (r1 r2 : HealthRow) :
  calculate_initiative_health_scores today inits fin op = Ok df ->
  In r1 df -> In r2 df ->
  Fle (fillna (Fin 0) (roi_percentage r1)) (fillna (Fin 0) (roi_percentage r2)) ->
  (financial_score r1 <= financial_score r2)%Z.
Proof.
  intros Hdf H1 H2 Hle.
  destruct (health_df_columns _ _ _ _ _ _ Hdf H1) as (-> & _).
  destruct (health_df_columns _ _ _ _ _ _ Hdf H2) as (-> & _).
  apply financial_score_fn_monotone. exact Hle.
Qed.

Lemma financial_score_monotone_witness :
  calculate_initiative_health_scores todayAB [initA; initB]
    (finA ++ finB) (opA ++ opB) = Ok [rowA; rowB]
  /\ In rowB [rowA; rowB] /\ In rowA [rowA; rowB]
  /\ Fle (fillna (Fin 0) (roi_percentage rowB))
         (fillna (Fin 0) (roi_percentage rowA))
  /\ (financial_score rowB <= financial_score rowA)%Z.
Proof.
  split; [vm_compute; reflexivity|]. split; [right; left; reflexivity|].
  split; [left; reflexivity|]. split; [vm_compute; reflexivity|].
  apply (financial_score_monotone todayAB [initA; initB] (finA ++ finB)
           (opA ++ opB) [rowA; rowB] rowB rowA);
    [vm_compute; reflexivity | right; left; reflexivity | left; reflexivity
    | vm_compute; reflexivity].
Defined.

Lemma fle_downward (x y : fnum) (c : Q) :
  Fle x y -> fle y (Fin c) = true -> fle x (Fin c) = true.
Proof.
  unfold Fle.
  destruct x as [a| | |], y as [b| | |]; cbn; try congruence.
  intros H1 H2. apply Qle_bool_iff in H1, H2. apply Qle_bool_iff. lra.
Qed.

Lemma time_score_fn_antitone (s : string) (x y : fnum) :
  Fle x y -> (time_score_fn s y <= time_score_fn s x)%Z.
Proof.
  intros H. unfold time_score_fn.
  destruct (s =? "Completed")%string; [lia|].
  pose proof (fle_downward x y 0.9 H) as H1.
  pose proof (fle_downward x y 1.0 H) as H2.
  pose proof (fle_downward x y 1.2 H) as H3.
  destruct (fle y (Fin 0.9)); [rewrite (H1 eq_refl); lia|].
  destruct (fle y (Fin 1.0));
    [rewrite (H2 eq_refl); destruct (fle x (Fin 0.9)); lia|].
  destruct (fle y (Fin 1.2));
    [rewrite (H3 eq_refl); destruct (fle x (Fin 0.9)), (fle x (Fin 1.0)); lia|].
  destruct (fle x (Fin 0.9)), (fle x (Fin 1.0)), (fle x (Fin 1.2)); lia.
Qed.

(** X3.  Within a frame, between two initiatives of the same status the
    time score never increases with time progress: the one that is further
    along its planned duration never has the higher time score. *)
Theorem time_score_antitone today inits fin op df (r1 r2 : HealthRow) :
  calculate_initiative_health_scores today inits fin op = Ok df ->
  In r1 df -> In r2 df ->
  InitiativeData.status r1 = InitiativeData.status r2 ->
  Fle (time_progress r1) (time_progress r2) ->
  (time_score r2 <= time_score r1)%Z.
Proof.
  intros Hdf H1 H2 Hst Hle.
  destruct (health_df_columns _ _ _ _ _ _ Hdf H1) as (_ & -> & _).
  destruct (health_df_columns _ _ _ _ _ _ Hdf H2) as (_ & -> & _).
  rewrite Hst. apply time_score_fn_antitone. exact Hle.
Qed.

(** A second initiative in progress, started later than [initB]. *)
Definition initE : Initiative :=
  InitiativeData.mk "E" "ERP System Upgrade" "Digital"
    (day 20100) (day 20200) (Fin 100000) (Fin 70000) "In Progress"
    "owner" "".

Definition rowE : HealthRow :=
  mkHealth (score_row todayAB (finA ++ finB) (opA ++ opB) initE)
           (day 20200) [].

Lemma time_score_antitone_witness :
  calculate_initiative_health_scores todayAB [initE; initB]
    (finA ++ finB) (opA ++ opB) = Ok [rowE; rowB]
  /\ In rowE [rowE; rowB] /\ In rowB [rowE; rowB]
  /\ InitiativeData.status rowE = InitiativeData.status rowB
  /\ Fle (time_progress rowE) (time_progress rowB)
  /\ (time_score rowB <= time_score rowE)%Z.
Proof.
  split; [vm_compute; reflexivity|]. split; [left; reflexivity|].
  split; [right; left; reflexivity|]. split; [reflexivity|].
  split; [vm_compute; reflexivity|].
  apply (time_score_antitone todayAB [initE; initB] (finA ++ finB)
           (opA ++ opB) [rowE; rowB] rowE rowB);
    [vm_compute; reflexivity | left; reflexivity | right; left; reflexivity
    | reflexivity | vm_compute; reflexivity].
Defined.

(** ** Missing samples and the saturation of the operational score *)

Lemma clamp_0_20_saturates (e q s : fnum) :
  Fle (Fin 0) (fillna (Fin 0) e) ->
  Fle (Fin 50) (fillna (Fin 80) q) ->
  Fle (Fin 5) (fillna (Fin 7) s) ->
  clamp_0_20 (operational_composite e q s) = Fin 20.
Proof.
  unfold Fle, clamp_0_20, operational_composite, py_min, py_max, fgt.
  destruct e as [e| | |], q as [q| | |], s as [s| | |]; cbn;
    try discriminate; try reflexivity; intros He Hq Hs;
    qtests; cbn; qtests; cbn; qtests; try reflexivity; try lra.
Qed.

(** X4.  The operational score saturates: whenever the mean efficiency gain
    is not negative, the mean quality score is at least 50 and the mean
    employee satisfaction at least 5 (each read with its default 0, 80 or 7
    when missing), the operational score is the maximum 20.  In particular
    an initiative without any operational sample gets 20. *)
Theorem operational_score_saturates today inits fin op df (row : HealthRow) :
  calculate_initiative_health_scores today inits fin op = Ok df ->
  In row df ->
  (Fle (Fin 0) (fillna (Fin 0) (efficiency_gain_percentage row)) ->
   Fle (Fin 50) (fillna (Fin 80) (quality_score row)) ->
   Fle (Fin 5) (fillna (Fin 7) (employee_satisfaction row)) ->
   operational_score row = Fin 20)
  /\ (operational_group op (InitiativeData.initiative_id row) = [] ->
      operational_score row = Fin 20).
Proof.
  intros Hdf Hin.
  destruct (health_df_columns _ _ _ _ _ _ Hdf Hin)
    as (_ & _ & _ & Hop & _ & He & Hq & Hs).
  split.
  - intros H1 H2 H3. rewrite Hop. apply clamp_0_20_saturates; assumption.
  - intros Hg. rewrite Hop, He, Hq, Hs, Hg. reflexivity.
Qed.

Lemma operational_score_saturates_witness :
  calculate_initiative_health_scores todayAB [initA; initB]
    (finA ++ finB) (opA ++ opB) = Ok [rowA; rowB]
  /\ In rowA [rowA; rowB]
  /\ Fle (Fin 0) (fillna (Fin 0) (efficiency_gain_percentage rowA))
  /\ Fle (Fin 50) (fillna (Fin 80) (quality_score rowA))
  /\ Fle (Fin 5) (fillna (Fin 7) (employee_satisfaction rowA))
  /\ operational_score rowA = Fin 20.
Proof.
  split; [vm_compute; reflexivity|]. split; [left; reflexivity|].
  split; [vm_compute; reflexivity|]. split; [vm_compute; reflexivity|].
  split; [vm_compute; reflexivity|].
  refine (proj1 (operational_score_saturates todayAB [initA; initB]
                   (finA ++ finB) (opA ++ opB) [rowA; rowB] rowA _ _) _ _ _);
    [vm_compute; reflexivity | left; reflexivity | vm_compute; reflexivity
    | vm_compute; reflexivity | vm_compute; reflexivity].
Defined.

(** X5.  An initiative without any financial and without any operational
    sample is kept and scored on its defaults: financial score 10 (that of
    an ROI of 0), operational score 20, so that its health score is
    budget_score + time_score + 30; no ROI or satisfaction tag is attached,
    the only risk factors it can carry are 'Budget Overrun' and 'Schedule
    Delay'. *)
Theorem unsampled_initiative_scores today inits fin op df (row : HealthRow) :
  calculate_initiative_health_scores today inits fin op = Ok df ->
  In row df ->
  financial_group fin (InitiativeData.initiative_id row) = [] ->
  operational_group op (InitiativeData.initiative_id row) = [] ->
  financial_score row = 10%Z
  /\ health_score row
     = fadd (of_Z (budget_score row + time_score row + 10)) (Fin 20)
  /\ Fle (Fin 30) (health_score row)
  /\ (forall tag, In tag (risk_factors row) ->
        tag = "Budget Overrun" \/ tag = "Schedule Delay").
Proof.
  intros Hdf Hin Hf Ho.
  destruct (health_df_columns _ _ _ _ _ _ Hdf Hin)
    as (Hfs & _ & _ & Hop & Hroi & He & Hq & Hs).
  rewrite Hf in Hroi. rewrite Ho in He, Hq, Hs. cbn in Hroi, He, Hq, Hs.
  assert (Hfs10 : financial_score row = 10%Z) by (rewrite Hfs, Hroi; reflexivity).
  assert (Hop20 : operational_score row = Fin 20)
    by (rewrite Hop, He, Hq, Hs; reflexivity).
  assert (Hhs : health_score row
                = fadd (of_Z (budget_score row + time_score row + 10)) (Fin 20)).
  { destruct (health_df_row _ _ _ _ _ _ Hdf Hin) as (i & _ & Hrow & _).
    rewrite <- Hop20, <- Hfs10. rewrite Hrow. reflexivity. }
  split; [exact Hfs10|]. split; [exact Hhs|]. split.
  - rewrite Hhs. cbn. apply Fle_Fin.
    destruct (health_df_columns _ _ _ _ _ _ Hdf Hin) as (_ & Ht & Hb & _).
    pose proof (budget_score_fn_band (budget_utilization row)) as Bb.
    pose proof (time_score_fn_band (InitiativeData.status row)
                  (time_progress row)) as Bt.
    rewrite <- Hb in Bb. rewrite <- Ht in Bt.
    assert (H0 : (10 <= budget_score row + time_score row + 10)%Z) by lia.
    rewrite Zle_Qle in H0. change (inject_Z 10) with 10 in H0. lra.
  - intros tag Htag.
    rewrite (risk_factors_of_rows _ _ _ _ _ _ Hdf Hin) in Htag.
    rewrite Hroi, Hs in Htag. cbn [flt tag_if] in Htag.
    rewrite !app_nil_r in Htag. apply in_app_or in Htag.
    unfold tag_if in Htag.
    destruct Htag as [Htag|Htag];
      [destruct (fgt (budget_utilization row) (Fin 1.1))
      |destruct (fgt (time_progress row) (Fin 1.0)
                 && negb (InitiativeData.status row =? "Completed")%string)];
      cbn in Htag; intuition.
Qed.

Lemma unsampled_initiative_scores_witness :
  calculate_initiative_health_scores todayAB [initD] finA opA = Ok [rowD]
  /\ In rowD [rowD]
  /\ financial_group finA (InitiativeData.initiative_id rowD) = []
  /\ operational_group opA (InitiativeData.initiative_id rowD) = []
  /\ financial_score rowD = 10%Z.
Proof.
  split; [vm_compute; reflexivity|]. split; [left; reflexivity|].
  split; [reflexivity|]. split; [reflexivity|].
  refine (proj1 (unsampled_initiative_scores todayAB [initD] finA opA [rowD]
                   rowD _ _ _ _));
    [vm_compute; reflexivity | left; reflexivity | reflexivity | reflexivity].
Defined.

(** ** Risk factors against the sub-scores *)

Lemma tag_membership (c1 c2 c3 c4 : bool) :
  let tags := tag_if c1 "Budget Overrun" ++ tag_if c2 "Schedule Delay"
              ++ tag_if c3 "Low ROI" ++ tag_if c4 "Team Satisfaction" in
  (In "Budget Overrun" tags <-> c1 = true)
  /\ (In "Schedule Delay" tags <-> c2 = true)
  /\ (In "Low ROI" tags <-> c3 = true)
  /\ (In "Team Satisfaction" tags <-> c4 = true).
Proof.
  destruct c1, c2, c3, c4; cbn;
    repeat split; intros H; try reflexivity; try discriminate;
    repeat (destruct H as [H|H]; try discriminate H); auto; try contradiction.
Qed.

Lemma budget_overrun_score (u : fnum) :
  fgt u (Fin 1.1) = true -> (budget_score_fn u <= 10)%Z.
Proof.
  unfold fgt, budget_score_fn.
  destruct u as [q| | |]; cbn; intros H; try discriminate H; try lia.
  apply Qlt_bool_iff in H. unfold Qlt_bool.
  qtests; cbn; try lia; lra.
Qed.

Lemma schedule_delay_score (s : string) (tp : fnum) :
  fgt tp (Fin 1.0) && negb (s =? "Completed")%string = true ->
  (time_score_fn s tp <= 5)%Z.
Proof.
  intros H. apply andb_true_iff in H. destruct H as [Ht Hs].
  apply negb_true_iff in Hs. unfold time_score_fn. rewrite Hs.
  unfold fgt in Ht.
  destruct tp as [q| | |]; cbn in *; try discriminate Ht; try lia.
  apply Qlt_bool_iff in Ht. qtests; try lia; lra.
Qed.

Lemma low_roi_score (roi : fnum) :
  flt roi (Fin 5) = true -> (financial_score_fn (fillna (Fin 0) roi) <= 10)%Z.
Proof.
  unfold financial_score_fn, fge.
  destruct roi as [q| | |]; cbn; intros H; try discriminate H; try lia.
  apply Qlt_bool_iff in H. qtests; try lia; lra.
Qed.

(** X6.  The risk factors agree with the sub-scores: a row tagged 'Budget
    Overrun' has a budget score of at most 10, a row tagged 'Schedule Delay'
    a time score of at most 5, a row tagged 'Low ROI' a financial score of at
    most 10; and a row that carries these three tags together is always
    classified Critical. *)
Theorem risk_factors_cap_scores today inits fin op df (row : HealthRow) :
  calculate_initiative_health_scores today inits fin op = Ok df ->
  In row df ->
  (In "Budget Overrun" (risk_factors row) -> (budget_score row <= 10)%Z)
  /\ (In "Schedule Delay" (risk_factors row) -> (time_score row <= 5)%Z)
  /\ (In "Low ROI" (risk_factors row) -> (financial_score row <= 10)%Z)
  /\ (In "Budget Overrun" (risk_factors row) ->
      In "Schedule Delay" (risk_factors row) ->
      In "Low ROI" (risk_factors row) ->
      health_status row = "Critical").
Proof.
  intros Hdf Hin.
  pose proof (risk_factors_of_rows _ _ _ _ _ _ Hdf Hin) as Hrf.
  destruct (tag_membership
              (fgt (budget_utilization row) (Fin 1.1))
              (fgt (time_progress row) (Fin 1.0)
               && negb (InitiativeData.status row =? "Completed")%string)
              (flt (roi_percentage row) (Fin 5))
              (flt (employee_satisfaction row) (Fin 6)))
    as (Tb & Tt & Tr & _).
  rewrite <- Hrf in Tb, Tt, Tr.
  destruct (health_df_columns _ _ _ _ _ _ Hdf Hin) as (Hfs & Hts & Hbs & _).
  assert (Cb : In "Budget Overrun" (risk_factors row) ->
               (budget_score row <= 10)%Z).
  { intros H. rewrite Hbs. apply budget_overrun_score, Tb, H. }
  assert (Ct : In "Schedule Delay" (risk_factors row) ->
               (time_score row <= 5)%Z).
  { intros H. rewrite Hts. apply schedule_delay_score, Tt, H. }
  assert (Cr : In "Low ROI" (risk_factors row) ->
               (financial_score row <= 10)%Z).
  { intros H. rewrite Hfs. apply low_roi_score, Tr, H. }
  split; [exact Cb|]. split; [exact Ct|]. split; [exact Cr|].
  intros H1 H2 H3. specialize (Cb H1). specialize (Ct H2). specialize (Cr H3).
  destruct (health_df_row _ _ _ _ _ _ Hdf Hin) as (i & _ & Hrow & _).
  destruct (score_row_health_score today fin op i) as (q & _ & Hq & Hs).
  rewrite <- Hrow in Hs.
  assert (Hst : health_status row = health_status_fn (health_score row))
    by (rewrite Hrow; reflexivity).
  rewrite Hst, Hs.
  assert (H25 : (budget_score row + time_score row + financial_score row
                 <= 25)%Z) by lia.
  rewrite Zle_Qle in H25. change (inject_Z 25) with 25 in H25.
  unfold health_status_fn, fge, fle. qtests; try reflexivity; lra.
Qed.

Lemma risk_factors_cap_scores_witness :
  calculate_initiative_health_scores todayAB [initA; initB]
    (finA ++ finB) (opA ++ opB) = Ok [rowA; rowB]
  /\ In rowB [rowA; rowB]
  /\ In "Budget Overrun" (risk_factors rowB)
  /\ In "Schedule Delay" (risk_factors rowB)
  /\ In "Low ROI" (risk_factors rowB)
  /\ health_status rowB = "Critical".
Proof.
  split; [vm_compute; reflexivity|]. split; [right; left; reflexivity|].
  split; [left; reflexivity|]. split; [right; left; reflexivity|].
  split; [right; right; left; reflexivity|].
  refine (proj2 (proj2 (proj2
            (risk_factors_cap_scores todayAB [initA; initB] (finA ++ finB)
               (opA ++ opB) [rowA; rowB] rowB _ _))) _ _ _);
    [vm_compute; reflexivity | right; left; reflexivity | left; reflexivity
    | right; left; reflexivity | right; right; left; reflexivity].
Defined.

(* ================================================================= *)
(** ** What the prediction amounts to *)








(* ================================================================= *)
(** ** Counts of the portfolio roll-up *)

Lemma value_count_cons (key s : string) (col : list string) :
  value_count key (s :: col)
  = ((if String.eqb key s then 1 else 0) + value_count key col)%Z.
Proof.
  unfold value_count, len. cbn [filter].
  destruct (String.eqb key s); cbn [List.length]; lia.
Qed.

Lemma len_cons {A} (a : A) (l : list A) : len (a :: l) = (1 + len l)%Z.
Proof. unfold len. cbn [List.length]. lia. Qed.

Lemma len_filter_bounds {A} (p : A -> bool) (l : list A) :
  (0 <= len (filter p l) <= len l)%Z.
Proof.
  unfold len. pose proof (filter_length_le p l). lia.
Qed.

Lemma health_status_fn_values (x : fnum) :
  health_status_fn x = "Excellent" \/ health_status_fn x = "Good"
  \/ health_status_fn x = "Warning" \/ health_status_fn x = "Critical".
Proof.
  unfold health_status_fn.
  destruct (fge x (Fin 80)); [auto|].
  destruct (fge x (Fin 65)); [auto|].
  destruct (fge x (Fin 50)); auto.
Qed.

Lemma four_way_count (col : list string) :
  (forall s, In s col ->
     s = "Excellent" \/ s = "Good" \/ s = "Warning" \/ s = "Critical") ->
  (value_count "Excellent" col + value_count "Good" col
   + value_count "Warning" col + value_count "Critical" col = len col)%Z.
Proof.
  induction col as [|s t IH]; intros H; [reflexivity|].
  rewrite !value_count_cons, len_cons.
  assert (IH' := IH (fun s' Hs' => H s' (or_intror Hs'))).
  destruct (H s (or_introl eq_refl)) as [ -> | [ -> | [ -> | -> ] ] ];
    repeat match goal with
      | |- context [String.eqb ?a ?b] =>
          let v := eval vm_compute in (String.eqb a b) in
          change (String.eqb a b) with v
      end; cbv iota; lia.
Qed.

(** X8.  On the frame returned by the scorer the health distribution of
    [calculate_portfolio_metrics] is a partition: its four counts
    (excellent, good, warning, critical) add up to [total_initiatives], the
    number of initiatives. *)
Theorem health_distribution_partition today now inits fin op df :
  calculate_initiative_health_scores today inits fin op = Ok df ->
  let m := calculate_portfolio_metrics now df fin in
  let d := health_distribution m in
  (HealthDistribution.excellent d + HealthDistribution.good d
   + HealthDistribution.warning d + HealthDistribution.critical d
   = total_initiatives m)%Z
  /\ total_initiatives m = len inits.
Proof.
  intros Hdf m d. subst d m. cbn. split.
  - replace (len df)
      with (len (map (fun r : HealthRow => health_status r) df))
      by (unfold len; rewrite length_map; reflexivity).
    apply four_way_count. intros s Hs. apply in_map_iff in Hs.
    destruct Hs as (r & <- & Hr).
    destruct (health_df_row _ _ _ _ _ _ Hdf Hr) as (i & _ & Hrow & _).
    rewrite Hrow. apply health_status_fn_values.
  - unfold len. f_equal.
    rewrite <- (health_df_bases _ _ _ _ _ Hdf). rewrite length_map. reflexivity.
Qed.

Lemma health_distribution_partition_witness :
  calculate_initiative_health_scores todayAB [initA; initB]
    (finA ++ finB) (opA ++ opB) = Ok [rowA; rowB]
  /\ total_initiatives
       (calculate_portfolio_metrics todayAB [rowA; rowB] (finA ++ finB))
     = len [initA; initB].
Proof.
  split; [vm_compute; reflexivity|].
  refine (proj2 (health_distribution_partition todayAB todayAB [initA; initB]
                   (finA ++ finB) (opA ++ opB) [rowA; rowB] _)).
  vm_compute; reflexivity.
Defined.

Lemma status_counts_disjoint (l : list HealthRow) :
  (len (filter (fun r => String.eqb (status_of r) "In Progress"
                         || String.eqb (status_of r) "At Risk") l)
   + len (filter (fun r => String.eqb (status_of r) "Completed") l)
   <= len l)%Z.
Proof.
  induction l as [|r t IH]; [cbn; lia|].
  cbn [filter].
  destruct (String.eqb (status_of r) "In Progress") eqn:E1,
    (String.eqb (status_of r) "At Risk") eqn:E2,
    (String.eqb (status_of r) "Completed") eqn:E3;
    cbn [orb]; rewrite ?len_cons; try lia; exfalso;
    apply String.eqb_eq in E3;
    try (apply String.eqb_eq in E1; rewrite E1 in E3; discriminate E3);
    try (apply String.eqb_eq in E2; rewrite E2 in E3; discriminate E3).
Qed.

(** X9.  For any health frame, the counts of the portfolio metrics are
    consistent with the number of rows: active and completed initiatives
    are disjoint groups (their counts add up to at most
    [total_initiatives]), and the at-risk and upcoming-completions counts
    lie between 0 and [total_initiatives]. *)
Theorem portfolio_counts_bounded now health_df financial_df :
  let m := calculate_portfolio_metrics now health_df financial_df in
  (0 <= active_initiatives m)%Z /\ (0 <= completed_initiatives m)%Z
  /\ (active_initiatives m + completed_initiatives m <= total_initiatives m)%Z
  /\ (0 <= AtRisk.count (at_risk_initiatives m) <= total_initiatives m)%Z
  /\ (0 <= Upcoming.count (upcoming_completions m) <= total_initiatives m)%Z
  /\ Upcoming.count (upcoming_completions m)
     = len (Upcoming.names (upcoming_completions m))
  /\ AtRisk.count (at_risk_initiatives m)
     = len (AtRisk.names (at_risk_initiatives m)).
Proof.
  cbn.
  split; [apply len_filter_bounds|]. split; [apply len_filter_bounds|].
  split; [apply status_counts_disjoint|].
  split; [apply len_filter_bounds|]. split; [apply len_filter_bounds|].
  split.
  - unfold len. rewrite length_map. reflexivity.
  - match goal with |- context [(0 <? len ?l)%Z] =>
      destruct (0 <? len l)%Z eqn:E; [|rewrite (len_nil_iff _ E); reflexivity]
    end.
    unfold len. rewrite length_map. reflexivity.
Qed.

(* ================================================================= *)
(** ** Samples of unknown initiatives *)

(** Whether [id] is the identifier of one of the initiatives. *)
Definition known_id (inits : list Initiative) (id : string) : bool :=
  existsb (fun i => String.eqb (InitiativeData.initiative_id i) id) inits.

Lemma filter_filter_implied {A} (p q : A -> bool) (l : list A) :
  (forall a, p a = true -> q a = true) ->
  filter p (filter q l) = filter p l.
Proof.
  intros H. induction l as [|a t IH]; [reflexivity|]. cbn.
  destruct (q a) eqn:Eq; cbn.
  - rewrite IH. reflexivity.
  - destruct (p a) eqn:Ep; [|exact IH].
    rewrite (H a Ep) in Eq. discriminate.
Qed.

Lemma mapM_ext_in {A B} (f g : A -> result B) (l : list A) :
  (forall a, In a l -> f a = g a) -> mapM f l = mapM g l.
Proof.
  induction l as [|a t IH]; intros H; [reflexivity|]. cbn.
  rewrite (H a (or_introl eq_refl)).
  rewrite IH; [reflexivity|]. intros b Hb. apply H. right. exact Hb.
Qed.

(** The row of an initiative depends on the sample tables only through the
    samples that carry its identifier. *)
Lemma health_row_own_samples today fin fin' op op' (i : Initiative) :
  financial_group fin (InitiativeData.initiative_id i)
  = financial_group fin' (InitiativeData.initiative_id i) ->
  operational_group op (InitiativeData.initiative_id i)
  = operational_group op' (InitiativeData.initiative_id i) ->
  health_row today fin op i = health_row today fin' op' i.
Proof.
  intros Hf Ho. unfold health_row, score_row. rewrite Hf, Ho. reflexivity.
Qed.

(** X10.  Samples whose initiative_id matches no initiative have no effect
    on the health frame: removing them from the financial and the
    operational table, wherever they stand, leaves the result of
    [calculate_initiative_health_scores] unchanged. *)
Theorem orphan_samples_ignored today inits fin op :
  calculate_initiative_health_scores today inits
    (filter (fun s => known_id inits (FinancialMetric.initiative_id s)) fin)
    (filter (fun s => known_id inits (OperationalMetric.initiative_id s)) op)
  = calculate_initiative_health_scores today inits fin op.
Proof.
  unfold calculate_initiative_health_scores. apply mapM_ext_in.
  intros i Hi. apply health_row_own_samples.
  - unfold financial_group. apply filter_filter_implied.
    intros s Hs. unfold known_id. apply existsb_exists.
    exists i. split; [exact Hi|]. apply String.eqb_eq in Hs.
    rewrite Hs. apply String.eqb_refl.
  - unfold operational_group. apply filter_filter_implied.
    intros s Hs. unfold known_id. apply existsb_exists.
    exists i. split; [exact Hi|]. apply String.eqb_eq in Hs.
    rewrite Hs. apply String.eqb_refl.
Qed.

(* ================================================================= *)
(** ** Status and action of the executive summary *)

Lemma create_executive_summary_rows (pm : PortfolioMetrics) rows :
  create_executive_summary pm = Ok rows ->
  total_initiatives pm <> 0%Z
  /\ exists k1 k2 k3 k4,
       rows = [k1; k2; k3; k4]
       /\ Summary.metric_name k1 = "Portfolio ROI"
       /\ (Summary.status k1 = "Good" /\ Summary.action_required k1 = "None"
           \/ Summary.status k1 = "Warning"
              /\ Summary.action_required k1
                 = "Review underperforming initiatives")
       /\ Summary.metric_name k2 = "Budget Utilization"
       /\ (Summary.status k2 = "Good" /\ Summary.action_required k2 = "None"
           \/ Summary.status k2 = "Warning"
              /\ Summary.action_required k2 = "Budget reallocation needed")
       /\ Summary.metric_name k3 = "At-Risk Initiatives"
       /\ Summary.status k3
          = (if fgt (of_Z (AtRisk.count (at_risk_initiatives pm)))
                    (fmul (of_Z (total_initiatives pm)) (Fin 0.3))
             then "Critical" else "Good")
       /\ Summary.action_required k3
          = (if (0 <? AtRisk.count (at_risk_initiatives pm))%Z
             then "Immediate intervention required" else "None")
       /\ Summary.metric_name k4 = "Completion Rate"
       /\ let rate := fmul (Fin (inject_Z (completed_initiatives pm)
                                 / inject_Z (total_initiatives pm))) (Fin 100) in
          Summary.status k4 = (if fgt rate (Fin 60) then "Good" else "Warning")
          /\ Summary.action_required k4
             = (if flt rate (Fin 60) then "Accelerate delivery" else "None").
Proof.
  unfold create_executive_summary, py_truediv.
  destruct (total_initiatives pm =? 0)%Z eqn:E; [discriminate|].
  apply Z.eqb_neq in E. cbn [bind]. intros H. injection H as <-.
  split; [exact E|]. do 4 eexists. split; [reflexivity|].
  cbn [Summary.metric_name Summary.status Summary.action_required].
  split; [reflexivity|]. split.
  { match goal with |- context [if ?c then "Good" else "Warning"] =>
      destruct c end; auto. }
  split; [reflexivity|]. split.
  { match goal with |- context [if ?c then "Good" else "Warning"] =>
      destruct c end; auto. }
  repeat split; reflexivity.
Qed.

Lemma at_risk_share_integers (c t : Z) :
  fgt (of_Z c) (fmul (of_Z t) (Fin 0.3)) = true <-> (3 * t < 10 * c)%Z.
Proof.
  unfold fgt, of_Z, fmul, flt. rewrite Qlt_bool_iff.
  rewrite Zlt_Qlt, !inject_Z_mult.
  change (inject_Z 3) with 3. change (inject_Z 10) with 10.
  split; intros H; lra.
Qed.

(** X11.  In a summary that [create_executive_summary] returns, status and
    action of a row never contradict each other.  For 'Portfolio ROI' and
    'Budget Utilization' the status is Good exactly when the action is
    'None'.  The 'At-Risk Initiatives' row is Critical exactly when more
    than 30% of the initiatives are at risk (10 x count > 3 x total), and
    with a positive total a Critical row always asks for intervention; the
    row asks for intervention as soon as one initiative is at risk, also
    when its status is still Good. *)
Theorem summary_status_action_consistent (pm : PortfolioMetrics) rows
        (r : Summary.row) :
  create_executive_summary pm = Ok rows ->
  In r rows ->
  let count := AtRisk.count (at_risk_initiatives pm) in
  ((Summary.metric_name r = "Portfolio ROI"
    \/ Summary.metric_name r = "Budget Utilization") ->
   (Summary.status r = "Good" <-> Summary.action_required r = "None"))
  /\ (Summary.metric_name r = "At-Risk Initiatives" ->
      (Summary.status r = "Critical"
       <-> (3 * total_initiatives pm < 10 * count)%Z)
      /\ (Summary.action_required r = "Immediate intervention required"
          <-> (0 < count)%Z)
      /\ ((0 < total_initiatives pm)%Z -> Summary.status r = "Critical" ->
          Summary.action_required r = "Immediate intervention required")).
Proof.
  intros Hs Hin count. subst count.
  destruct (create_executive_summary_rows pm rows Hs)
    as (_ & k1 & k2 & k3 & k4 & -> & N1 & S1 & N2 & S2 & N3 & S3 & A3 & N4 & _).
  assert (Hcrit : Summary.status k3 = "Critical"
                  <-> (3 * total_initiatives pm
                       < 10 * AtRisk.count (at_risk_initiatives pm))%Z).
  { rewrite S3, <- at_risk_share_integers.
    destruct (fgt _ _); split; intros H; try reflexivity; discriminate H. }
  assert (Hact : Summary.action_required k3 = "Immediate intervention required"
                 <-> (0 < AtRisk.count (at_risk_initiatives pm))%Z).
  { rewrite A3, <- Z.ltb_lt.
    destruct (0 <? _)%Z; split; intros H; try reflexivity; discriminate H. }
  destruct Hin as [<-|[<-|[<-|[<-|[]]]]].
  - split.
    + intros _. destruct S1 as [(-> & ->)|(-> & ->)];
        split; intros H; try reflexivity; discriminate H.
    + rewrite N1. intros H. discriminate H.
  - split.
    + intros _. destruct S2 as [(-> & ->)|(-> & ->)];
        split; intros H; try reflexivity; discriminate H.
    + rewrite N2. intros H. discriminate H.
  - split.
    + rewrite N3. intros [H|H]; discriminate H.
    + intros _. split; [exact Hcrit|]. split; [exact Hact|].
      intros Hpos Hc. apply Hact. apply Hcrit in Hc. lia.
  - split.
    + rewrite N4. intros [H|H]; discriminate H.
    + rewrite N4. intros H. discriminate H.
Qed.

Lemma summary_status_action_consistent_witness :
  create_executive_summary
    (calculate_portfolio_metrics todayAB [rowA; rowB] (finA ++ finB))
  = Ok [Summary.mk "Portfolio ROI" (Percent1 (Fin ((5350 / 215000 - 1) * 100)))
          "Warning"
          "Return on Investment across all transformation initiatives"
          "Review underperforming initiatives";
        Summary.mk "Budget Utilization"
          (Percent1 (Fin (215000 / 200000 * 100))) "Warning"
          "Overall budget utilization across portfolio"
          "Budget reallocation needed";
        Summary.mk "At-Risk Initiatives" (Ratio 1 2) "Critical"
          "Number of initiatives requiring immediate attention"
          "Immediate intervention required";
        Summary.mk "Completion Rate" (Percent1 (Fin (1 / 2 * 100))) "Warning"
          "Percentage of initiatives successfully completed"
          "Accelerate delivery"]
  /\ (3 * 2 < 10 * 1)%Z.
Proof.
  split; [vm_compute; reflexivity|].
  refine (proj1 (proj1 (proj2
    (summary_status_action_consistent
       (calculate_portfolio_metrics todayAB [rowA; rowB] (finA ++ finB))
       _ (Summary.mk "At-Risk Initiatives" (Ratio 1 2) "Critical"
            "Number of initiatives requiring immediate attention"
            "Immediate intervention required") _ _) eq_refl)) eq_refl).
  - vm_compute; reflexivity.
  - right; right; left; reflexivity.
Defined.

Lemma completion_rate_integers (c t : Z) :
  (0 < t)%Z ->
  let rate := fmul (Fin (inject_Z c / inject_Z t)) (Fin 100) in
  (fgt rate (Fin 60) = true <-> (3 * t < 5 * c)%Z)
  /\ (flt rate (Fin 60) = true <-> (5 * c < 3 * t)%Z).
Proof.
  intros Ht. cbv zeta. unfold fgt, fmul, flt. rewrite !Qlt_bool_iff.
  rewrite !Zlt_Qlt, !inject_Z_mult.
  change (inject_Z 3) with 3. change (inject_Z 5) with 5.
  rewrite Zlt_Qlt in Ht. change (inject_Z 0) with 0 in Ht.
  set (C := inject_Z c) in *. set (T := inject_Z t) in *.
  assert (HT : ~ T == 0) by lra.
  assert (Hq : C / T * T == C) by (field; exact HT).
  split; split; intros H.
  - assert (H1 : (3 # 5) * T < C / T * T)
      by (apply Qmult_lt_r; [exact Ht|lra]).
    lra.
  - assert (H1 : (3 # 5) * T < C / T * T) by lra.
    apply Qmult_lt_r in H1; [lra|exact Ht].
  - assert (H1 : C / T * T < (3 # 5) * T)
      by (apply Qmult_lt_r; [exact Ht|lra]).
    lra.
  - assert (H1 : C / T * T < (3 # 5) * T) by lra.
    apply Qmult_lt_r in H1; [lra|exact Ht].
Qed.

(** X12.  With a positive number of initiatives, the 'Completion Rate' row
    of the summary is decided by whole counts: its status is Good exactly
    when more than 60% are completed (5 x completed > 3 x total), its action
    is 'Accelerate delivery' exactly when fewer than 60% are; at exactly 60%
    the row has status Warning with action 'None'. *)
Theorem completion_rate_row (pm : PortfolioMetrics) rows (r : Summary.row) :
  (0 < total_initiatives pm)%Z ->
  create_executive_summary pm = Ok rows ->
  In r rows ->
  Summary.metric_name r = "Completion Rate" ->
  let c := completed_initiatives pm in
  let t := total_initiatives pm in
  (Summary.status r = "Good" <-> (3 * t < 5 * c)%Z)
  /\ (Summary.status r = "Warning" <-> (5 * c <= 3 * t)%Z)
  /\ (Summary.action_required r = "Accelerate delivery" <-> (5 * c < 3 * t)%Z)
  /\ ((5 * c = 3 * t)%Z ->
      Summary.status r = "Warning" /\ Summary.action_required r = "None").
Proof.
  intros Hpos Hs Hin Hname c t. subst c t.
  destruct (create_executive_summary_rows pm rows Hs)
    as (_ & k1 & k2 & k3 & k4 & -> & N1 & _ & N2 & _ & N3 & _ & _ & N4 & S4 & A4).
  destruct Hin as [<-|[<-|[<-|[<-|[]]]]];
    try (rewrite N1 in Hname; discriminate Hname);
    try (rewrite N2 in Hname; discriminate Hname);
    try (rewrite N3 in Hname; discriminate Hname).
  destruct (completion_rate_integers (completed_initiatives pm)
              (total_initiatives pm) Hpos) as (Hg & Hl).
  cbv zeta in Hg, Hl. rewrite S4, A4.
  destruct (fgt _ (Fin 60)); destruct (flt _ (Fin 60)).
  - assert (G := proj1 Hg eq_refl). assert (L := proj1 Hl eq_refl). lia.
  - assert (G := proj1 Hg eq_refl).
    repeat split; intros; try reflexivity; try discriminate; lia.
  - assert (L := proj1 Hl eq_refl).
    repeat split; intros; try reflexivity; try discriminate; lia.
  - assert (G : ~ (3 * total_initiatives pm < 5 * completed_initiatives pm)%Z)
      by (intros X; apply Hg in X; discriminate X).
    assert (L : ~ (5 * completed_initiatives pm < 3 * total_initiatives pm)%Z)
      by (intros X; apply Hl in X; discriminate X).
    repeat split; intros; try reflexivity; try discriminate; lia.
Qed.

(** Metrics of a portfolio of five initiatives of which three are
    completed. *)
Definition metrics_three_of_five : PortfolioMetrics :=
  mkMetrics 5 2 3 (Fin 500000) (Fin 450000) (Fin 90) (Fin 600000)
            (Fin (100 # 3)) (HealthDistribution.mk 2 2 1 0)
            (AtRisk.mk 0 (Fin 0) []) (Upcoming.mk 0 []).

Lemma completion_rate_row_witness :
  (0 < total_initiatives metrics_three_of_five)%Z
  /\ (5 * completed_initiatives metrics_three_of_five
      = 3 * total_initiatives metrics_three_of_five)%Z
  /\ exists rows r,
       create_executive_summary metrics_three_of_five = Ok rows
       /\ In r rows
       /\ Summary.metric_name r = "Completion Rate"
       /\ Summary.status r = "Warning" /\ Summary.action_required r = "None".
Proof.
  split; [reflexivity|]. split; [reflexivity|].
  eexists. eexists.
  split; [vm_compute; reflexivity|].
  split; [right; right; right; left; reflexivity|].
  split; [reflexivity|].
  refine (proj2 (proj2 (proj2
    (completion_rate_row metrics_three_of_five _ _ _ _ _ _))) _);
    [reflexivity | vm_compute; reflexivity
    | right; right; right; left; reflexivity | reflexivity | reflexivity].
Defined.

(* ================================================================= *)
(** ** The three computations of [run_full_transformation] in sequence *)



(* ================================================================= *)
(** ** Aggregates stay within the range of their samples *)








(* ================================================================= *)
(** ** Budget totals of the portfolio *)







(* ================================================================= *)
(** ** The summary in terms of the portfolio totals *)







Lemma at_risk_count_is_critical today now inits fin op df :
  calculate_initiative_health_scores today inits fin op = Ok df ->
  AtRisk.count (at_risk_initiatives (calculate_portfolio_metrics now df fin))
  = HealthDistribution.critical
      (health_distribution (calculate_portfolio_metrics now df fin)).
Proof.
  intros Hdf. cbn. symmetry.
  apply (count_filter_map (fun r : HealthRow => health_status r)).
  intros r Hr.
  destruct (health_df_row _ _ _ _ _ _ Hdf Hr) as (i & _ & Hrow & _).
  rewrite Hrow. apply critical_iff_at_risk.
Qed.

(** X18.  Through the whole chain, the 'At-Risk Initiatives' row of the
    summary follows the classification of the scorer: it is Critical exactly
    when more than 30% of the initiatives are classified Critical, and when
    no initiative is classified Critical it is Good with action 'None'. *)
Theorem at_risk_row_follows_classification today now inits fin op df rows
        (r : Summary.row) :
  calculate_initiative_health_scores today inits fin op = Ok df ->
  let pm := calculate_portfolio_metrics now df fin in
  let critical := HealthDistribution.critical (health_distribution pm) in
  create_executive_summary pm = Ok rows ->
  In r rows ->
  Summary.metric_name r = "At-Risk Initiatives" ->
  (Summary.status r = "Critical" <-> (3 * len inits < 10 * critical)%Z)
  /\ (critical = 0%Z ->
      Summary.status r = "Good" /\ Summary.action_required r = "None").
Proof.
  intros Hdf pm critical Hs Hin Hname. subst critical pm.
  rewrite <- (at_risk_count_is_critical today now inits fin op df Hdf).
  set (pm := calculate_portfolio_metrics now df fin) in *.
  assert (Htot : total_initiatives pm = len inits).
  { subst pm. cbn. unfold len. f_equal.
    rewrite <- (health_df_bases _ _ _ _ _ Hdf). rewrite length_map. reflexivity. }
  destruct (create_executive_summary_rows pm rows Hs)
    as (_ & k1 & k2 & k3 & k4 & -> & N1 & _ & N2 & _ & N3 & S3 & A3 & N4 & _).
  destruct Hin as [<-|[<-|[<-|[<-|[]]]]];
    try (rewrite N1 in Hname; discriminate Hname);
    try (rewrite N2 in Hname; discriminate Hname);
    try (rewrite N4 in Hname; discriminate Hname).
  rewrite Htot in S3. rewrite S3, A3.
  pose proof (at_risk_share_integers (AtRisk.count (at_risk_initiatives pm))
                (len inits)) as Hshare.
  assert (Hlen : (0 <= len inits)%Z) by (unfold len; lia).
  destruct (fgt (of_Z (AtRisk.count (at_risk_initiatives pm)))
                (fmul (of_Z (len inits)) (Fin 0.3))).
  - assert (G := proj1 Hshare eq_refl). split.
    + split; intros _; [exact G|reflexivity].
    + intros H0. lia.
  - assert (G : ~ (3 * len inits
                   < 10 * AtRisk.count (at_risk_initiatives pm))%Z)
      by (intros X; apply Hshare in X; discriminate X).
    split.
    + split; intros H; [discriminate H|contradiction].
    + intros ->. split; reflexivity.
Qed.

Lemma at_risk_row_follows_classification_witness :
  exists rows r,
    calculate_initiative_health_scores todayAB [initA; initB]
      (finA ++ finB) (opA ++ opB) = Ok [rowA; rowB]
    /\ create_executive_summary
         (calculate_portfolio_metrics todayAB [rowA; rowB] (finA ++ finB))
       = Ok rows
    /\ In r rows
    /\ Summary.metric_name r = "At-Risk Initiatives"
    /\ (Summary.status r = "Critical"
        <-> (3 * len [initA; initB]
             < 10 * HealthDistribution.critical
                      (health_distribution
                         (calculate_portfolio_metrics todayAB [rowA; rowB]
                            (finA ++ finB))))%Z).
Proof.
  eexists. eexists.
  split; [vm_compute; reflexivity|]. split; [vm_compute; reflexivity|].
  split; [right; right; left; reflexivity|]. split; [reflexivity|].
  refine (proj1 (at_risk_row_follows_classification todayAB todayAB
                   [initA; initB] (finA ++ finB) (opA ++ opB) [rowA; rowB]
                   _ _ _ _ _ _));
    [vm_compute; reflexivity | vm_compute; reflexivity
    | right; right; left; reflexivity | reflexivity].
Defined.
